(** * Azure CosmosDB NoSQL vector store adapter

    A shallow embedding of
    [llama_index/vector_stores/azurecosmosnosql/base.py]
    (class [AzureCosmosDBNoSqlVectorSearch]): the Python values the adapter
    passes around, the exceptions it raises, the requests it sends to the
    Cosmos service, and its three operations [__init__], [add] and [_query],
    followed by the properties of the adapter contract. *)

From Stdlib Require Import ZArith String Ascii List.
From Stdlib Require Import Floats.SpecFloat.
From stdpp Require Import base option list strings gmap fin_maps.

Open Scope string_scope.
Open Scope list_scope.
Set Warnings "-register-all".

(** ** Python values *)

(** The arguments of the adapter are typed [Dict[str, Any]]: what they hold
    is only known at run time.  [value] is the fragment of Python's objects the
    adapter can meet: [None], booleans, integers, floats, strings, lists and
    string-keyed dictionaries. *)
Inductive value : Type :=
  | VNone
  | VBool (b : bool)
  | VInt (z : Z)
  | VFloat (f : spec_float)
  | VStr (s : string)
  | VList (l : list value)
  | VDict (d : gmap string value).

(** ** Exceptions *)

Inductive exn : Type :=
  | ValueError (msg : string)
  | Exception (msg : string)
  | KeyError (key : value)
  | IndexError
  | TypeError
  | AttributeError
  | CosmosHttpResponseError (status : Z).

(** A computation that returns or raises. *)
Inductive result (A : Type) : Type :=
  | Ok (a : A)
  | Raise (e : exn).
Arguments Ok {A} a.
Arguments Raise {A} e.

Definition rbind {A B} (r : result A) (k : A -> result B) : result B :=
  match r with
  | Ok a => k a
  | Raise e => Raise e
  end.

Declare Scope py_scope.
Delimit Scope py_scope with py.
Notation "'let?' x ':=' r 'in' k" := (rbind r (fun x => k))
  (at level 10, x pattern, r at level 100, k at level 200) : py_scope.
Open Scope py_scope.

(** ** The operators of Python the adapter uses *)

(** [v is None] *)
Definition is_None (v : value) : bool :=
  match v with VNone => true | _ => false end.

(** [d[key]] with a string key: a dictionary raises [KeyError] for an absent
    key, every other object refuses the subscript. *)
Definition getitem (d : value) (key : string) : result value :=
  match d with
  | VDict m =>
      match m !! key with
      | Some v => Ok v
      | None => Raise (KeyError (VStr key))
      end
  | _ => Raise TypeError
  end.

(** [d.get(key)]: [None] for an absent key; only dictionaries have [get]. *)
Definition get (d : value) (key : string) : result value :=
  match d with
  | VDict m => Ok (default VNone (m !! key))
  | _ => Raise AttributeError
  end.

(** [len(v)] *)
Definition len (v : value) : result nat :=
  match v with
  | VStr s => Ok (String.length s)
  | VList l => Ok (length l)
  | VDict m => Ok (size m)
  | _ => Raise TypeError
  end.

(** [v[0]] *)
Definition getitem0 (v : value) : result value :=
  match v with
  | VList [] => Raise IndexError
  | VList (x :: _) => Ok x
  | VStr EmptyString => Raise IndexError
  | VStr (String c _) => Ok (VStr (String c EmptyString))
  | VDict _ => Raise (KeyError (VInt 0))
  | _ => Raise TypeError
  end.

(** [v[1:]]: strings and lists are sliced, every other object refuses the
    slice. *)
Definition slice_from1 (v : value) : result value :=
  match v with
  | VStr s => Ok (VStr (match s with EmptyString => EmptyString | String _ t => t end))
  | VList l => Ok (VList (tail l))
  | _ => Raise TypeError
  end.

(** Truth value of an object, as [or] and [not] test it. *)
Definition truthy (v : value) : bool :=
  match v with
  | VNone => false
  | VBool b => b
  | VInt z => negb (Z.eqb z 0)
  | VFloat f => match f with S754_zero _ => false | _ => true end
  | VStr s => negb (Nat.eqb (String.length s) 0)
  | VList l => negb (Nat.eqb (length l) 0)
  | VDict m => negb (Nat.eqb (size m) 0)
  end.

(** [a or b] *)
Definition py_or (a b : value) : value := if truthy a then a else b.

(** ** The Cosmos service *)

(** The requests the adapter sends, with the keyword arguments of each. *)
Inductive call : Type :=
  | create_database_if_not_exists
      (id : string)
      (offer_throughput session_token initial_headers etag match_condition : value)
  | create_container_if_not_exists
      (id : string)
      (partition_key indexing_policy default_ttl offer_throughput
       unique_key_policy conflict_resolution_policy analytical_storage_ttl
       computed_properties etag match_condition session_token initial_headers
       vector_embedding_policy : value)
  | upsert_item (item : value)
  | query_items (query : string) (parameters : list value)
      (enable_cross_partition_query : bool).

(** What is observable of the service: every request it has received, oldest
    first, and the documents written by the upserts that returned. *)
Record cosmos : Type := {
  calls : list call;
  items : list value;
}.

(** The service is an external collaborator.  Its behaviour is a parameter:
    whether it rejects a request, given the requests before it, and the rows
    it yields for a query. *)
Record service : Type := {
  fault : list call -> call -> option exn;
  rows : cosmos -> call -> list value;
}.

(** Adapter code runs against the service: it returns or raises, and leaves
    the service in a new state. *)
Definition M (A : Type) : Type := cosmos -> result A * cosmos.

Definition ret {A} (a : A) : M A := fun s => (Ok a, s).
Definition lift {A} (r : result A) : M A := fun s => (r, s).
Definition bind {A B} (m : M A) (k : A -> M B) : M B :=
  fun s =>
    match m s with
    | (Ok a, s') => k a s'
    | (Raise e, s') => (Raise e, s')
    end.

Notation "'let!' x ':=' m 'in' k" := (bind m (fun x => k))
  (at level 10, x pattern, m at level 100, k at level 200) : py_scope.

Definition persist (c : call) (docs : list value) : list value :=
  match c with
  | upsert_item item => docs ++ [item]
  | _ => docs
  end.

(** One request: it is received, then either rejected or carried out. *)
Definition request (env : service) (c : call) : M unit :=
  fun s =>
    match fault env (calls s) c with
    | Some e => (Raise e, {| calls := calls s ++ [c]; items := items s |})
    | None => (Ok tt, {| calls := calls s ++ [c]; items := persist c (items s) |})
    end.

(** ** The adapter *)

(** The handle on the service that callers pass to the constructor. *)
Inductive CosmosClient : Type := Client.

(** The arguments of [__init__], with the defaults of its signature in
    [default_args]. *)
Record init_args : Type := {
  cosmos_client : option CosmosClient;
  vector_embedding_policy : value;
  indexing_policy : value;
  cosmos_container_properties : value;
  cosmos_database_properties : value;
  database_name : string;
  container_name : string;
  create_container : bool;
  id_key : string;
  text_key : string;
  metadata_key : string;
}.

Definition default_args (client : option CosmosClient)
    (vector_embedding_policy indexing_policy cosmos_container_properties : value)
    : init_args :=
  {| cosmos_client := client;
     vector_embedding_policy := vector_embedding_policy;
     indexing_policy := indexing_policy;
     cosmos_container_properties := cosmos_container_properties;
     cosmos_database_properties := VNone;
     database_name := "vectorSearchDB";
     container_name := "vectorSearchContainer";
     create_container := true;
     id_key := "id";
     text_key := "text";
     metadata_key := "metadata" |}.

(** The private attributes of a constructed adapter. *)
Record AzureCosmosDBNoSqlVectorSearch : Type := {
  _cosmos_client : CosmosClient;
  _database_name : string;
  _container_name : string;
  _embedding_key : value;
  _vector_embedding_policy : value;
  _indexing_policy : value;
  _cosmos_container_properties : value;
  _cosmos_database_properties : value;
  _id_key : string;
  _text_key : string;
  _metadata_key : string;
}.

(** Class attributes. *)
Definition stores_text : bool := true.
Definition flat_metadata : bool := true.

(** The three checks under [if create_container:], in source order. *)
Definition check_vector_indexes (indexing_policy : value) : result unit :=
  let? vi := getitem indexing_policy "vectorIndexes" in
  if is_None vi then
    Raise (ValueError "vectorIndexes cannot be null or empty in the indexing_policy.")
  else
    let? n := len vi in
    if Nat.eqb n 0 then
      Raise (ValueError "vectorIndexes cannot be null or empty in the indexing_policy.")
    else Ok tt.

Definition check_vector_embeddings (vector_embedding_policy : value) : result unit :=
  if is_None vector_embedding_policy then
    Raise (ValueError "vectorEmbeddings cannot be null or empty in the vector_embedding_policy.")
  else
    let? ve := getitem vector_embedding_policy "vectorEmbeddings" in
    let? n := len ve in
    if Nat.eqb n 0 then
      Raise (ValueError "vectorEmbeddings cannot be null or empty in the vector_embedding_policy.")
    else Ok tt.

Definition check_partition_key (cosmos_container_properties : value) : result unit :=
  if is_None cosmos_container_properties then
    Raise (ValueError "partition_key cannot be null or empty for a container.")
  else
    let? pk := getitem cosmos_container_properties "partition_key" in
    if is_None pk then
      Raise (ValueError "partition_key cannot be null or empty for a container.")
    else Ok tt.

Definition validate (a : init_args) : result unit :=
  if create_container a then
    let? _ := check_vector_indexes (indexing_policy a) in
    let? _ := check_vector_embeddings (vector_embedding_policy a) in
    check_partition_key (cosmos_container_properties a)
  else Ok tt.

(** [vector_embedding_policy["vectorEmbeddings"][0]["path"][1:]] *)
Definition embedding_key_of (vector_embedding_policy : value) : result value :=
  let? ve := getitem vector_embedding_policy "vectorEmbeddings" in
  let? e0 := getitem0 ve in
  let? path := getitem e0 "path" in
  slice_from1 path.

(** [self._cosmos_client]: the attribute is set only when a client was given. *)
Definition client_attr (c : option CosmosClient) : result CosmosClient :=
  match c with
  | Some c => Ok c
  | None => Raise AttributeError
  end.

(** The keyword arguments of the two provisioning requests, evaluated left to
    right. *)
Definition database_call (a : init_args) : result call :=
  let props := cosmos_database_properties a in
  let? offer_throughput := get props "offer_throughput" in
  let? session_token := get props "session_token" in
  let? initial_headers := get props "initial_headers" in
  let? etag := get props "etag" in
  let? match_condition := get props "match_condition" in
  Ok (create_database_if_not_exists (database_name a)
        offer_throughput session_token initial_headers etag match_condition).

Definition container_call (a : init_args) : result call :=
  let props := cosmos_container_properties a in
  let? partition_key := getitem props "partition_key" in
  let? default_ttl := get props "default_ttl" in
  let? offer_throughput := get props "offer_throughput" in
  let? unique_key_policy := get props "unique_key_policy" in
  let? conflict_resolution_policy := get props "conflict_resolution_policy" in
  let? analytical_storage_ttl := get props "analytical_storage_ttl" in
  let? computed_properties := get props "computed_properties" in
  let? etag := get props "etag" in
  let? match_condition := get props "match_condition" in
  let? session_token := get props "session_token" in
  let? initial_headers := get props "initial_headers" in
  Ok (create_container_if_not_exists (container_name a)
        partition_key (indexing_policy a) default_ttl offer_throughput
        unique_key_policy conflict_resolution_policy analytical_storage_ttl
        computed_properties etag match_condition session_token initial_headers
        (vector_embedding_policy a)).

(** ** Nodes *)

(** Modelled from the spec: [BaseNode] is declared in [llama_index.core.schema],
    which is not among the sources at hand.  The spec's glossary describes a
    node as a unit of retrievable content bundling text, metadata, an id and,
    once embedded, a vector. *)
Record BaseNode : Type := {
  node_id : string;
  embedding : option (list spec_float);
  text : value;
  metadata : gmap string value;
}.

(** Modelled from the spec: [node.get_embedding()]; the embedding must already
    have been populated by an upstream step, the adapter computes none. *)
Definition get_embedding (node : BaseNode) : result value :=
  match embedding node with
  | Some e => Ok (VList (VFloat <$> e))
  | None => Raise (ValueError "embedding not set.")
  end.

(** Modelled from the spec: [node.get_content(metadata_mode=MetadataMode.NONE)],
    the raw content only, with the metadata decorations disabled. *)
Definition get_content (node : BaseNode) : value := text node.

(** Modelled from the spec: [node.set_content(value)] overwrites the content
    of the node. *)
Definition set_content (node : BaseNode) (v : value) : BaseNode :=
  {| node_id := node_id node;
     embedding := embedding node;
     text := v;
     metadata := metadata node |}.

Definition is_scalar (v : value) : bool :=
  match v with
  | VList _ | VDict _ => false
  | _ => true
  end.

Definition is_flat (md : gmap string value) : bool :=
  bool_decide (map_Forall (fun _ v => is_scalar v = true) md).

(** Modelled from the spec: [node_to_metadata_dict], of
    [llama_index.core.vector_stores.utils], is not among the sources at hand.
    The spec describes its result as the metadata of the node with the text
    field stripped out, in scalar-safe form, from which the node can be
    reconstructed: the blob holds the entries of the metadata and, under one
    reserved entry, the node itself without its text and its embedding.  In
    flat mode a metadata value that is not a scalar is refused. *)
Definition node_to_metadata_dict (node : BaseNode) (remove_text flat_metadata : bool)
    : result value :=
  if flat_metadata && negb (is_flat (metadata node)) then
    Raise (ValueError "Value for metadata must be one of (str, int, float, None)")
  else
    let content : gmap string value :=
      {[ "id_" := VStr (node_id node);
         "text" := if remove_text then VStr "" else text node;
         "metadata" := VDict (metadata node) ]} in
    Ok (VDict (<["_node_content" := VDict content]> (metadata node))).

(** Modelled from the spec: [metadata_dict_to_node], of the same module,
    reconstructs a node from its stored metadata blob. *)
Definition metadata_dict_to_node (blob : value) : result BaseNode :=
  let? content := get blob "_node_content" in
  match content with
  | VDict c =>
      match c !! "id_", c !! "text", c !! "metadata" with
      | Some (VStr i), Some t, Some (VDict md) =>
          Ok {| node_id := i; embedding := None; text := t; metadata := md |}
      | _, _, _ => Raise (ValueError "Node content not found in metadata dict.")
      end
  | _ => Raise (ValueError "Node content not found in metadata dict.")
  end.

(** ** Queries *)

Record VectorStoreQuery : Type := {
  query_embedding : value;
  similarity_top_k : Z;
}.

Record VectorStoreQueryResult : Type := {
  nodes : list BaseNode;
  similarities : list value;
  ids : list value;
}.

(** The text of the similarity query, a literal of [_query]. *)
Definition query_text : string :=
  "SELECT TOP @k c.id, c.embedding, c.text, c.metadata, VectorDistance(c.embedding,@embedding) AS SimilarityScore FROM c ORDER BY VectorDistance(c.embedding,@embedding)".

(** [{"name": name, "value": v}] *)
Definition parameter (name : string) (v : value) : value :=
  VDict {[ "name" := VStr name; "value" := v ]}.

(** The document [add] builds for one node.  A dictionary display evaluates its
    keys and values left to right and then builds the dictionary, a later key
    overwriting an equal earlier one; a key that is a list is unhashable. *)
Definition entry_of (self : AzureCosmosDBNoSqlVectorSearch) (node : BaseNode)
    : result value :=
  let? metadata := node_to_metadata_dict node true flat_metadata in
  let? embedding := get_embedding node in
  let content := py_or (get_content node) (VStr "") in
  match _embedding_key self with
  | VStr embedding_key =>
      Ok (VDict (<[_metadata_key self := metadata]>
                (<[_text_key self := content]>
                (<[embedding_key := embedding]>
                (<[_id_key self := VStr (node_id node)]> ∅)))))
  | _ => Raise TypeError
  end.

(** The metadata blob and the document of a node whose metadata is flat and
    whose embedding is [e], for an adapter whose embedding key is the string
    [embedding_key]. *)
Definition blob_of (node : BaseNode) : value :=
  VDict (<["_node_content" :=
             VDict {[ "id_" := VStr (node_id node);
                      "text" := VStr "";
                      "metadata" := VDict (metadata node) ]}]> (metadata node)).

Definition document_of (self : AzureCosmosDBNoSqlVectorSearch) (embedding_key : string)
    (node : BaseNode) (e : list spec_float) : gmap string value :=
  <[_metadata_key self := blob_of node]>
  (<[_text_key self := py_or (text node) (VStr "")]>
  (<[embedding_key := VList (VFloat <$> e)]>
  (<[_id_key self := VStr (node_id node)]> ∅))).

(** The first loop of [add], over the nodes, with its two accumulators. *)
Fixpoint build_entries (self : AzureCosmosDBNoSqlVectorSearch) (nodes : list BaseNode)
    (ids : list string) (data_to_insert : list value)
    : result (list string * list value) :=
  match nodes with
  | [] => Ok (ids, data_to_insert)
  | node :: rest =>
      let? entry := entry_of self node in
      build_entries self rest (ids ++ [node_id node]) (data_to_insert ++ [entry])
  end.

(** What [_query] reads from one row. *)
Definition read_row (self : AzureCosmosDBNoSqlVectorSearch) (item : value)
    : result (BaseNode * value * value) :=
  let? blob := getitem item (_metadata_key self) in
  let? node := metadata_dict_to_node blob in
  let? content := getitem item (_text_key self) in
  let node := set_content node content in
  let? node_id := getitem item (_id_key self) in
  let? node_score := getitem item "SimilarityScore" in
  Ok (node, node_id, node_score).

(** The loop of [_query], over the rows, with its three accumulators. *)
Fixpoint collect_rows (self : AzureCosmosDBNoSqlVectorSearch) (rows : list value)
    (top_k_nodes : list BaseNode) (top_k_ids top_k_scores : list value)
    : result VectorStoreQueryResult :=
  match rows with
  | [] => Ok {| nodes := top_k_nodes; similarities := top_k_scores; ids := top_k_ids |}
  | item :: rest =>
      let? (node, node_id, node_score) := read_row self item in
      collect_rows self rest (top_k_nodes ++ [node]) (top_k_ids ++ [node_id])
        (top_k_scores ++ [node_score])
  end.

Section Adapter.

Variable env : service.

(** [__init__] *)
Definition init (a : init_args) : M AzureCosmosDBNoSqlVectorSearch :=
  let! _ := lift (validate a) in
  let! embedding_key := lift (embedding_key_of (vector_embedding_policy a)) in
  let! client := lift (client_attr (cosmos_client a)) in
  let! db := lift (database_call a) in
  let! _ := request env db in
  let! container := lift (container_call a) in
  let! _ := request env container in
  ret {| _cosmos_client := client;
         _database_name := database_name a;
         _container_name := container_name a;
         _embedding_key := embedding_key;
         _vector_embedding_policy := vector_embedding_policy a;
         _indexing_policy := indexing_policy a;
         _cosmos_container_properties := cosmos_container_properties a;
         _cosmos_database_properties := cosmos_database_properties a;
         _id_key := id_key a;
         _text_key := text_key a;
         _metadata_key := metadata_key a |}.

(** The second loop of [add]: one upsert per document, in order. *)
Fixpoint upsert_all (data_to_insert : list value) : M unit :=
  match data_to_insert with
  | [] => ret tt
  | item :: rest =>
      let! _ := request env (upsert_item item) in
      upsert_all rest
  end.

(** [add] *)
Definition add (self : AzureCosmosDBNoSqlVectorSearch) (nodes : list BaseNode)
    : M (list string) :=
  match nodes with
  | [] => lift (Raise (Exception "Texts can not be null or empty"))
  | _ =>
      let! (ids, data_to_insert) := lift (build_entries self nodes [] []) in
      let! _ := upsert_all data_to_insert in
      ret ids
  end.

(** [container.query_items(...)]: the request, then the rows it yields. *)
Definition fetch (c : call) : M (list value) :=
  fun s =>
    match request env c s with
    | (Ok _, s') => (Ok (rows env s c), s')
    | (Raise e, s') => (Raise e, s')
    end.

(** [_query] *)
Definition _query (self : AzureCosmosDBNoSqlVectorSearch) (query : VectorStoreQuery)
    : M VectorStoreQueryResult :=
  let params : value :=
    VDict {[ "vector" := query_embedding query;
             "path" := _embedding_key self;
             "k" := VInt (similarity_top_k query) ]} in
  let! k := lift (getitem params "k") in
  let! vector := lift (getitem params "vector") in
  let! rows :=
    fetch (query_items query_text
             [parameter "@k" k; parameter "@embedding" vector] true) in
  lift (collect_rows self rows [] [] []).

(** [query] *)
Definition query (self : AzureCosmosDBNoSqlVectorSearch) (q : VectorStoreQuery)
    : M VectorStoreQueryResult :=
  _query self q.

End Adapter.

(** ** Reading the query text *)

(** [contains needle hay]: [needle] occurs in [hay]. *)
Fixpoint contains (needle hay : string) : bool :=
  String.prefix needle hay ||
  match hay with
  | EmptyString => false
  | String _ rest => contains needle rest
  end.

(** [ends_with suffix s] *)
Fixpoint ends_with (suffix s : string) : bool :=
  String.eqb suffix s ||
  match s with
  | EmptyString => false
  | String _ rest => ends_with suffix rest
  end.

(** ** A service for the examples *)

(** It rejects nothing, and a query yields every stored document, in the order
    of writing, each with a score. *)
Definition with_score (score : value) (doc : value) : value :=
  match doc with
  | VDict d => VDict (<["SimilarityScore" := score]> d)
  | _ => doc
  end.

Definition echo : service :=
  {| fault := fun _ _ => None;
     rows := fun s _ => with_score (VFloat (S754_zero false)) <$> items s |}.

(** [flaky n] rejects the request that [n] requests precede (throttled), and
    no other. *)
Definition flaky (n : nat) : service :=
  {| fault := fun h _ =>
       if Nat.eqb (length h) n then Some (CosmosHttpResponseError 429) else None;
     rows := fun s _ => with_score (VFloat (S754_zero false)) <$> items s |}.

Definition fresh : cosmos := {| calls := []; items := [] |}.

Definition embedding_policy (path : string) : value :=
  VDict {[ "vectorEmbeddings" :=
             VList [VDict {[ "path" := VStr path;
                             "dataType" := VStr "float32";
                             "distanceFunction" := VStr "cosine";
                             "dimensions" := VInt 3 ]}] ]}.

Definition index_policy (path : string) : value :=
  VDict {[ "indexingMode" := VStr "consistent";
           "vectorIndexes" :=
             VList [VDict {[ "path" := VStr path; "type" := VStr "quantizedFlat" ]}] ]}.

Definition container_properties : value :=
  VDict {[ "partition_key" := VStr "/id" ]}.

Definition sample_args (path : string) (database_properties : value) (create : bool)
    : init_args :=
  {| cosmos_client := Some Client;
     vector_embedding_policy := embedding_policy path;
     indexing_policy := index_policy path;
     cosmos_container_properties := container_properties;
     cosmos_database_properties := database_properties;
     database_name := "vectorSearchDB";
     container_name := "vectorSearchContainer";
     create_container := create;
     id_key := "id";
     text_key := "text";
     metadata_key := "metadata" |}.

Definition sample_self (embedding_key : string) : AzureCosmosDBNoSqlVectorSearch :=
  {| _cosmos_client := Client;
     _database_name := "vectorSearchDB";
     _container_name := "vectorSearchContainer";
     _embedding_key := VStr embedding_key;
     _vector_embedding_policy := embedding_policy ("/" +:+ embedding_key);
     _indexing_policy := index_policy ("/" +:+ embedding_key);
     _cosmos_container_properties := container_properties;
     _cosmos_database_properties := VDict ∅;
     _id_key := "id";
     _text_key := "text";
     _metadata_key := "metadata" |}.

Definition hello : BaseNode :=
  {| node_id := "n1";
     embedding := Some [S754_zero false; S754_infinity false; S754_zero true];
     text := VStr "hello";
     metadata := {[ "a" := VInt 1 ]} |}.

Definition node_with_id (i : string) (node : BaseNode) : BaseNode :=
  {| node_id := i;
     embedding := embedding node;
     text := text node;
     metadata := metadata node |}.

Definition sample_query (k : Z) : VectorStoreQuery :=
  {| query_embedding := VList (VFloat <$> [S754_zero false; S754_infinity false; S754_zero true]);
     similarity_top_k := k |}.

(** The ways a list the configuration must declare under [key] can be missing
    or empty: no dictionary at all, no entry, a null entry, an empty list. *)
Inductive missing_or_empty (d : value) (key : string) : Prop :=
  | dictionary_null : d = VNone -> missing_or_empty d key
  | entry_absent m : d = VDict m -> m !! key = None -> missing_or_empty d key
  | entry_null m : d = VDict m -> m !! key = Some VNone -> missing_or_empty d key
  | entry_empty m : d = VDict m -> m !! key = Some (VList []) -> missing_or_empty d key.

Inductive partition_key_null (d : value) : Prop :=
  | properties_null : d = VNone -> partition_key_null d
  | key_absent m : d = VDict m -> m !! "partition_key" = None -> partition_key_null d
  | key_null m : d = VDict m -> m !! "partition_key" = Some VNone -> partition_key_null d.

Definition vector_indexes_message : string :=
  "vectorIndexes cannot be null or empty in the indexing_policy.".
Definition vector_embeddings_message : string :=
  "vectorEmbeddings cannot be null or empty in the vector_embedding_policy.".
Definition partition_key_message : string :=
  "partition_key cannot be null or empty for a container.".

(** [args] with the [create_container] flag replaced. *)
Definition with_create_container (b : bool) (a : init_args) : init_args :=
  {| cosmos_client := cosmos_client a;
     vector_embedding_policy := vector_embedding_policy a;
     indexing_policy := indexing_policy a;
     cosmos_container_properties := cosmos_container_properties a;
     cosmos_database_properties := cosmos_database_properties a;
     database_name := database_name a;
     container_name := container_name a;
     create_container := b;
     id_key := id_key a;
     text_key := text_key a;
     metadata_key := metadata_key a |}.

(** The adapter [__init__] returns once every step has passed. *)
Definition self_of (a : init_args) (client : CosmosClient) (embedding_key : value)
    : AzureCosmosDBNoSqlVectorSearch :=
  {| _cosmos_client := client;
     _database_name := database_name a;
     _container_name := container_name a;
     _embedding_key := embedding_key;
     _vector_embedding_policy := vector_embedding_policy a;
     _indexing_policy := indexing_policy a;
     _cosmos_container_properties := cosmos_container_properties a;
     _cosmos_database_properties := cosmos_database_properties a;
     _id_key := id_key a;
     _text_key := text_key a;
     _metadata_key := metadata_key a |}.

(** A valid configuration, but for its [vectorEmbeddings] entry. *)
Definition embeddings_args (entry : value) (create : bool) : init_args :=
  {| cosmos_client := Some Client;
     vector_embedding_policy := VDict {[ "vectorEmbeddings" := entry ]};
     indexing_policy := index_policy "/embedding";
     cosmos_container_properties := container_properties;
     cosmos_database_properties := VDict ∅;
     database_name := "vectorSearchDB";
     container_name := "vectorSearchContainer";
     create_container := create;
     id_key := "id";
     text_key := "text";
     metadata_key := "metadata" |}.

(** The [vectorEmbeddings] entry is null. *)
Definition null_embeddings_args : init_args := embeddings_args VNone true.

Definition sample_embedding : list spec_float :=
  [S754_zero false; S754_infinity false; S754_zero true].

(** The adapter constructed from [sample_args "/vec"], the document it builds
    for [hello], and the state of the service once [add] has stored that
    document for [sample_self "embedding"]. *)
Definition vec_self : AzureCosmosDBNoSqlVectorSearch :=
  self_of (sample_args "/vec" (VDict ∅) true) Client (VStr "vec").

Definition vec_doc : gmap string value :=
  document_of vec_self "vec" hello sample_embedding.

Definition hello_doc : gmap string value :=
  document_of (sample_self "embedding") "embedding" hello sample_embedding.

Definition stored : cosmos :=
  {| calls := [upsert_item (VDict hello_doc)]; items := [VDict hello_doc] |}.

(** Three nodes and their documents for [sample_self "embedding"]. *)
Definition three_nodes : list BaseNode :=
  [hello; node_with_id "n2" hello; node_with_id "n3" hello].

Definition three_docs : list value :=
  (fun n => VDict (document_of (sample_self "embedding") "embedding" n sample_embedding))
    <$> three_nodes.

Definition hello_read : BaseNode :=
  {| node_id := "n1"; embedding := None; text := VStr "hello";
     metadata := {[ "a" := VInt 1 ]} |}.

Definition hello_result : VectorStoreQueryResult :=
  {| nodes := [hello_read];
     similarities := [VFloat (S754_zero false)];
     ids := [VStr "n1"] |}.

(** The request [_query] sends: the literal text with its two parameters. *)
Definition similarity_call (q : VectorStoreQuery) : call :=
  query_items query_text
    [parameter "@k" (VInt (similarity_top_k q));
     parameter "@embedding" (query_embedding q)]
    true.

(** ** What the validation accepts *)

(** The configuration declares, under [key], an object with at least one
    entry: [len] is defined on it and is not zero. *)
Definition declares_nonempty (d : value) (key : string) : Prop :=
  exists m v n, d = VDict m /\ m !! key = Some v /\ len v = Ok (S n).

Definition declares_partition_key (d : value) : Prop :=
  exists m v, d = VDict m /\ m !! "partition_key" = Some v /\ v <> VNone.

(** The service rejects nothing. *)
Definition never_rejects (env : service) : Prop :=
  forall h c, fault env h c = None.

(** The node a stored document reads back as: the content is there (empty when
    the node had none), the embedding is not. *)
Definition read_back (node : BaseNode) : BaseNode :=
  {| node_id := node_id node;
     embedding := None;
     text := py_or (text node) (VStr "");
     metadata := metadata node |}.

(** A configuration with the default names and keys. *)
Definition configuration (client : option CosmosClient)
    (embedding_policy indexing_policy container_properties database_properties : value)
    (create : bool) : init_args :=
  {| cosmos_client := client;
     vector_embedding_policy := embedding_policy;
     indexing_policy := indexing_policy;
     cosmos_container_properties := container_properties;
     cosmos_database_properties := database_properties;
     database_name := "vectorSearchDB";
     container_name := "vectorSearchContainer";
     create_container := create;
     id_key := "id";
     text_key := "text";
     metadata_key := "metadata" |}.

Definition sample_database_call : call :=
  create_database_if_not_exists "vectorSearchDB" VNone VNone VNone VNone VNone.

Definition sample_container_call : call :=
  create_container_if_not_exists "vectorSearchContainer"
    (VStr "/id") (index_policy "/embedding")
    VNone VNone VNone VNone VNone VNone VNone VNone VNone VNone
    (embedding_policy "/embedding").

Definition hello_without_embedding : BaseNode :=
  {| node_id := "n0"; embedding := None; text := VStr "hello";
     metadata := {[ "a" := VInt 1 ]} |}.

(** ** The requests of each operation *)

Section Properties.

Variable env : service.

Lemma request_ok c s :
  fault env (calls s) c = None ->
  request env c s = (Ok tt, {| calls := calls s ++ [c]; items := persist c (items s) |}).
Proof. unfold request. by intros ->. Qed.

Lemma request_fault c s e :
  fault env (calls s) c = Some e ->
  request env c s = (Raise e, {| calls := calls s ++ [c]; items := items s |}).
Proof. unfold request. by intros ->. Qed.

Lemma request_calls c s : calls (snd (request env c s)) = calls s ++ [c].
Proof. unfold request. by destruct (fault env (calls s) c). Qed.

Lemma request_items_other c s :
  (forall item, c <> upsert_item item) -> items (snd (request env c s)) = items s.
Proof.
  intros Hc. unfold request.
  destruct (fault env (calls s) c); [done|].
  destruct c; simpl; try done. by destruct (Hc item).
Qed.

Lemma fetch_calls c s : calls (snd (fetch env c s)) = calls s ++ [c].
Proof.
  unfold fetch. pose proof (request_calls c s) as H.
  by destruct (request env c s) as [[]].
Qed.

Lemma fetch_items c s :
  (forall item, c <> upsert_item item) -> items (snd (fetch env c s)) = items s.
Proof.
  intros Hc. unfold fetch. pose proof (request_items_other c s Hc) as H.
  by destruct (request env c s) as [[]].
Qed.

Lemma _query_unfold self q s :
  _query env self q s =
  match fetch env (similarity_call q) s with
  | (Ok rows, s') => (collect_rows self rows [] [] [], s')
  | (Raise e, s') => (Raise e, s')
  end.
Proof. reflexivity. Qed.

Lemma query_calls self q s :
  calls (snd (query env self q s)) = calls s ++ [similarity_call q].
Proof.
  unfold query. rewrite _query_unfold.
  pose proof (fetch_calls (similarity_call q) s) as Hc.
  by destruct (fetch env (similarity_call q) s) as [[]].
Qed.

Lemma query_items_unchanged self q s :
  items (snd (query env self q s)) = items s.
Proof.
  unfold query. rewrite _query_unfold.
  pose proof (fetch_items (similarity_call q) s) as Hi.
  destruct (fetch env (similarity_call q) s) as [[]]; by apply Hi.
Qed.

Lemma collect_rows_lengths self rows ns js ss r :
  collect_rows self rows ns js ss = Ok r ->
  length (nodes r) = length ns + length rows /\
  length (ids r) = length js + length rows /\
  length (similarities r) = length ss + length rows.
Proof.
  revert ns js ss. induction rows as [|item rest IH]; intros ns js ss H; simpl in *.
  - inversion H; subst; simpl. lia.
  - destruct (read_row self item) as [[[n i] sc]|e]; simpl in H; [|done].
    apply IH in H. rewrite !length_app in H. simpl in H. lia.
Qed.

Lemma collect_rows_total self rows ns js ss :
  Forall (fun item => exists t, read_row self item = Ok t) rows ->
  exists r, collect_rows self rows ns js ss = Ok r.
Proof.
  intros H. revert ns js ss. induction H as [|item rest [[[n i] sc] Hx] _ IH];
    intros ns js ss; simpl.
  - eauto.
  - rewrite Hx. simpl. apply IH.
Qed.

(** C4. Calling [add] with an empty list of nodes raises the input error
    ("Texts can not be null or empty") and leaves the service untouched: no
    request is sent and no document written. *)
Theorem add_empty_raises self s :
  add env self [] s = (Raise (Exception "Texts can not be null or empty"), s).
Proof. reflexivity. Qed.

(** C2. Every query sends exactly one request to the service: the
    parameterized text, which selects the top [@k] rows ordered by the vector
    distance between the embedding column and [@embedding] (ascending, the
    text asks for no descending order), with exactly the two parameters [@k],
    the integer count, and [@embedding], the query vector, and with
    cross-partition scanning enabled.  Nothing is written. *)
Theorem query_sends_one_parameterized_request self q s :
  let s' := snd (query env self q s) in
  calls s' =
    calls s ++
      [query_items query_text
         [VDict {[ "name" := VStr "@k"; "value" := VInt (similarity_top_k q) ]};
          VDict {[ "name" := VStr "@embedding"; "value" := query_embedding q ]}]
         true] /\
  items s' = items s /\
  String.prefix "SELECT TOP @k " query_text = true /\
  ends_with " ORDER BY VectorDistance(c.embedding,@embedding)" query_text = true /\
  contains "DESC" query_text = false.
Proof.
  simpl. split; [apply query_calls|]. split; [apply query_items_unchanged|].
  by vm_compute.
Qed.

(** C9. Whenever a query returns, the three sequences of its result, the
    nodes, the ids and the similarities, have the same length, which is the
    number of rows the service yielded; this holds for every top-k count. *)
Theorem query_result_lengths self q s r s' :
  query env self q s = (Ok r, s') ->
  length (nodes r) = length (ids r) /\
  length (ids r) = length (similarities r) /\
  length (nodes r) = length (rows env s (similarity_call q)).
Proof.
  unfold query. rewrite _query_unfold. unfold fetch.
  destruct (request env (similarity_call q) s) as [[[]|e] s1]; [|done].
  intros H. injection H as H _.
  apply collect_rows_lengths in H. simpl in H. lia.
Qed.

(** ** Construction *)

Lemma init_unfold a s :
  init env a s =
  match validate a with
  | Raise e => (Raise e, s)
  | Ok _ =>
    match embedding_key_of (vector_embedding_policy a) with
    | Raise e => (Raise e, s)
    | Ok k =>
      match client_attr (cosmos_client a) with
      | Raise e => (Raise e, s)
      | Ok c =>
        match database_call a with
        | Raise e => (Raise e, s)
        | Ok db =>
          match request env db s with
          | (Raise e, s1) => (Raise e, s1)
          | (Ok _, s1) =>
            match container_call a with
            | Raise e => (Raise e, s1)
            | Ok ct =>
              match request env ct s1 with
              | (Raise e, s2) => (Raise e, s2)
              | (Ok _, s2) => (Ok (self_of a c k), s2)
              end
            end
          end
        end
      end
    end
  end.
Proof.
  unfold init, bind, lift, ret, self_of.
  destruct (validate a); [|done].
  destruct (embedding_key_of _); [|done].
  destruct (client_attr _); [|done].
  destruct (database_call a); [|done].
  destruct (request env _ s) as [[] s1]; [|done].
  destruct (container_call a); [|done].
  by destruct (request env _ s1) as [[] s2].
Qed.

(** A failed validation ends construction before any request. *)
Lemma init_validate_raise a s e :
  validate a = Raise e -> init env a s = (Raise e, s).
Proof. intros H. by rewrite init_unfold, H. Qed.

Lemma database_call_None a :
  cosmos_database_properties a = VNone -> database_call a = Raise AttributeError.
Proof. unfold database_call. by intros ->. Qed.

Lemma database_call_dict a m :
  cosmos_database_properties a = VDict m ->
  database_call a =
  Ok (create_database_if_not_exists (database_name a)
        (default VNone (m !! "offer_throughput"))
        (default VNone (m !! "session_token"))
        (default VNone (m !! "initial_headers"))
        (default VNone (m !! "etag"))
        (default VNone (m !! "match_condition"))).
Proof. unfold database_call. by intros ->. Qed.

Lemma container_call_dict a m pk :
  cosmos_container_properties a = VDict m ->
  m !! "partition_key" = Some pk ->
  container_call a =
  Ok (create_container_if_not_exists (container_name a)
        pk (indexing_policy a)
        (default VNone (m !! "default_ttl"))
        (default VNone (m !! "offer_throughput"))
        (default VNone (m !! "unique_key_policy"))
        (default VNone (m !! "conflict_resolution_policy"))
        (default VNone (m !! "analytical_storage_ttl"))
        (default VNone (m !! "computed_properties"))
        (default VNone (m !! "etag"))
        (default VNone (m !! "match_condition"))
        (default VNone (m !! "session_token"))
        (default VNone (m !! "initial_headers"))
        (vector_embedding_policy a)).
Proof. unfold container_call. intros -> H. simpl. by rewrite H. Qed.

(** C5. With [cosmos_database_properties] left at its default [None],
    construction never succeeds: it raises before any request is sent, and
    when every step before the database request passes the exception is the
    [AttributeError] of [None.get]. *)
Theorem init_without_database_properties_raises a s :
  cosmos_database_properties a = VNone ->
  (exists e, init env a s = (Raise e, s)) /\
  (forall k c,
     validate a = Ok tt ->
     embedding_key_of (vector_embedding_policy a) = Ok k ->
     cosmos_client a = Some c ->
     init env a s = (Raise AttributeError, s)).
Proof.
  intros H. apply database_call_None in H. split.
  - rewrite init_unfold, H.
    destruct (validate a); [|by eauto].
    destruct (embedding_key_of _); [|by eauto].
    destruct (client_attr _); by eauto.
  - intros k c Hv Hk Hc. by rewrite init_unfold, Hv, Hk, Hc, H.
Qed.

(** C3. With [create_container] set and the [vectorEmbeddings] entry null, in
    a configuration that is valid otherwise, construction does stop before any
    request, but with the [TypeError] of [len(None)] and not with the
    [ValueError] whose message announces that the entry cannot be null. *)
Theorem init_null_vector_embeddings s :
  create_container null_embeddings_args = true /\
  getitem (vector_embedding_policy null_embeddings_args) "vectorEmbeddings" = Ok VNone /\
  check_vector_indexes (indexing_policy null_embeddings_args) = Ok tt /\
  check_partition_key (cosmos_container_properties null_embeddings_args) = Ok tt /\
  init env null_embeddings_args s = (Raise TypeError, s).
Proof. repeat split; by vm_compute. Qed.

(** Each check passes only on a configuration that declares what it looks
    for. *)
Lemma check_vector_indexes_Ok d :
  check_vector_indexes d = Ok tt -> ~ missing_or_empty d "vectorIndexes".
Proof.
  unfold check_vector_indexes. intros H [->|m -> Hm|m -> Hm|m -> Hm];
    simpl in H; try rewrite Hm in H; done.
Qed.

Lemma check_vector_embeddings_Ok d :
  check_vector_embeddings d = Ok tt -> ~ missing_or_empty d "vectorEmbeddings".
Proof.
  unfold check_vector_embeddings. intros H [->|m -> Hm|m -> Hm|m -> Hm];
    simpl in H; try rewrite Hm in H; done.
Qed.

Lemma check_partition_key_Ok d :
  check_partition_key d = Ok tt -> ~ partition_key_null d.
Proof.
  unfold check_partition_key. intros H [->|m -> Hm|m -> Hm];
    simpl in H; try rewrite Hm in H; done.
Qed.

(** X2. Fail fast: with [create_container] set, a configuration that lacks
    one of the three required parts never reaches the service, whatever the
    exception that stops it. *)
Lemma init_fail_fast a s :
  create_container a = true ->
  missing_or_empty (indexing_policy a) "vectorIndexes" \/
  missing_or_empty (vector_embedding_policy a) "vectorEmbeddings" \/
  partition_key_null (cosmos_container_properties a) ->
  exists e, init env a s = (Raise e, s).
Proof.
  intros Hc H. destruct (validate a) as [[]|e] eqn:Hv;
    [|by eauto using init_validate_raise].
  exfalso. unfold validate in Hv. rewrite Hc in Hv.
  destruct (check_vector_indexes _) as [[]|] eqn:H1; [|done].
  destruct (check_vector_embeddings _) as [[]|] eqn:H2; [|done].
  simpl in Hv.
  destruct H as [H|[H|H]].
  - by apply check_vector_indexes_Ok in H1.
  - by apply check_vector_embeddings_Ok in H2.
  - by apply check_partition_key_Ok in Hv.
Qed.

(** X3. The configuration errors proper: what each check tests for, it
    reports with a [ValueError] carrying its message, before any request, the
    checks running in the order vector indexes, vector embeddings, partition
    key. *)
Lemma init_configuration_error a s :
  create_container a = true ->
  (forall m, indexing_policy a = VDict m ->
     m !! "vectorIndexes" = Some VNone \/ m !! "vectorIndexes" = Some (VList []) ->
     init env a s = (Raise (ValueError vector_indexes_message), s)) /\
  (check_vector_indexes (indexing_policy a) = Ok tt ->
     vector_embedding_policy a = VNone \/
     (exists m, vector_embedding_policy a = VDict m /\
                m !! "vectorEmbeddings" = Some (VList [])) ->
     init env a s = (Raise (ValueError vector_embeddings_message), s)) /\
  (check_vector_indexes (indexing_policy a) = Ok tt ->
   check_vector_embeddings (vector_embedding_policy a) = Ok tt ->
     cosmos_container_properties a = VNone \/
     (exists m, cosmos_container_properties a = VDict m /\
                m !! "partition_key" = Some VNone) ->
     init env a s = (Raise (ValueError partition_key_message), s)).
Proof.
  intros Hc. repeat split.
  - intros m Hm H. apply init_validate_raise. unfold validate, check_vector_indexes.
    rewrite Hc, Hm. simpl. by destruct H as [->| ->].
  - intros H1 H. apply init_validate_raise. unfold validate. rewrite Hc, H1. simpl.
    unfold check_vector_embeddings.
    destruct H as [->|(m & -> & Hm)]; [done|]. simpl. by rewrite Hm.
  - intros H1 H2 H. apply init_validate_raise. unfold validate. rewrite Hc, H1, H2.
    simpl. unfold check_partition_key.
    destruct H as [->|(m & -> & Hm)]; [done|]. simpl. by rewrite Hm.
Qed.

Lemma validate_without_create_container a :
  create_container a = false -> validate a = Ok tt.
Proof. unfold validate. by intros ->. Qed.

(** X5. The flag guards the validation and nothing else: on a configuration
    that passes the validation, construction is the same with and without
    it. *)
Lemma create_container_guards_validation_only a s :
  validate (with_create_container true a) = Ok tt ->
  init env (with_create_container false a) s = init env (with_create_container true a) s.
Proof. intros H. rewrite !init_unfold, H. reflexivity. Qed.

(** C10. With [create_container] unset the validation is skipped and nothing
    else.  The embedding key is still read from the first [vectorEmbeddings]
    entry, so an empty list still fails construction (with an [IndexError],
    before any request).  And when the steps before them pass, the
    create-database request and then the create-container request are still
    sent; construction returns the adapter, holding that embedding key, unless
    the container request is rejected. *)
Theorem init_without_create_container a s :
  create_container a = false ->
  validate a = Ok tt /\
  (forall m,
     vector_embedding_policy a = VDict m ->
     m !! "vectorEmbeddings" = Some (VList []) ->
     init env a s = (Raise IndexError, s)) /\
  (forall k c db ct,
     embedding_key_of (vector_embedding_policy a) = Ok k ->
     cosmos_client a = Some c ->
     database_call a = Ok db ->
     container_call a = Ok ct ->
     fault env (calls s) db = None ->
     calls (snd (init env a s)) = calls s ++ [db; ct] /\
     items (snd (init env a s)) = items s /\
     fst (init env a s) =
       match fault env (calls s ++ [db]) ct with
       | None => Ok (self_of a c k)
       | Some e => Raise e
       end).
Proof.
  intros Hc. pose proof (validate_without_create_container a Hc) as Hv.
  split; [done|]. split.
  - intros m Hm He. rewrite init_unfold, Hv. unfold embedding_key_of.
    rewrite Hm. simpl. by rewrite He.
  - intros k c db ct Hk Hcl Hdb Hct Hf.
    rewrite init_unfold, Hv, Hk, Hcl, Hdb, Hct. simpl.
    assert (persist db (items s) = items s) as Hp.
    { unfold database_call in Hdb.
      repeat (destruct (get _ _); simpl in Hdb; [|done]). by injection Hdb as <-. }
    assert (forall l, persist ct l = l) as Hq.
    { intros l. unfold container_call in Hct.
      destruct (getitem _ _); simpl in Hct; [|done].
      repeat (destruct (get _ _); simpl in Hct; [|done]). by injection Hct as <-. }
    rewrite (request_ok db s Hf), Hp.
    destruct (fault env (calls s ++ [db]) ct) as [e|] eqn:Hf2.
    + rewrite (request_fault ct _ e) by done. simpl. by rewrite <- app_assoc.
    + rewrite (request_ok ct) by done. simpl. by rewrite <- app_assoc, Hq.
Qed.

(** ** Adding nodes *)

Lemma entry_of_ok self node k e :
  _embedding_key self = VStr k ->
  embedding node = Some e ->
  is_flat (metadata node) = true ->
  entry_of self node = Ok (VDict (document_of self k node e)).
Proof.
  intros Hk He Hf. unfold entry_of, node_to_metadata_dict, get_embedding, flat_metadata.
  by rewrite Hf, He, Hk.
Qed.

Lemma build_entries_ok self nodes es ids data :
  Forall2 (fun n d => entry_of self n = Ok d) nodes es ->
  build_entries self nodes ids data = Ok (ids ++ (node_id <$> nodes), data ++ es).
Proof.
  intros H. revert ids data. induction H as [|n d nodes es Hn _ IH]; intros ids data; simpl.
  - by rewrite !app_nil_r.
  - rewrite Hn. simpl. rewrite IH, <- !app_assoc. reflexivity.
Qed.

Lemma build_entries_inv self nodes ids data ids' data' :
  build_entries self nodes ids data = Ok (ids', data') ->
  ids' = ids ++ (node_id <$> nodes) /\
  exists es, data' = data ++ es /\ Forall2 (fun n d => entry_of self n = Ok d) nodes es.
Proof.
  revert ids data. induction nodes as [|n nodes IH]; intros ids data H; simpl in *.
  - injection H as <- <-. rewrite !app_nil_r. split; [done|]. exists []. by rewrite app_nil_r.
  - destruct (entry_of self n) as [d|] eqn:Hn; simpl in H; [|done].
    apply IH in H as (-> & es & -> & Hes). rewrite <- !app_assoc. split; [done|].
    exists (d :: es). split; [done|]. by constructor.
Qed.

Lemma upsert_all_ok es s :
  (forall j item, es !! j = Some item ->
     fault env (calls s ++ (upsert_item <$> take j es)) (upsert_item item) = None) ->
  upsert_all env es s =
  (Ok tt, {| calls := calls s ++ (upsert_item <$> es); items := items s ++ es |}).
Proof.
  revert s. induction es as [|x es IH]; intros s H; simpl.
  - unfold ret. destruct s. simpl. by rewrite !app_nil_r.
  - unfold bind. rewrite request_ok.
    2:{ specialize (H 0 x eq_refl). simpl in H. by rewrite app_nil_r in H. }
    rewrite IH; simpl.
    + by rewrite <- !app_assoc.
    + intros j item Hj. specialize (H (S j) item Hj). simpl in H.
      by rewrite <- app_assoc.
Qed.

Lemma upsert_all_fault es s i item e :
  es !! i = Some item ->
  (forall j d, j < i -> es !! j = Some d ->
     fault env (calls s ++ (upsert_item <$> take j es)) (upsert_item d) = None) ->
  fault env (calls s ++ (upsert_item <$> take i es)) (upsert_item item) = Some e ->
  upsert_all env es s =
  (Raise e, {| calls := calls s ++ (upsert_item <$> take (S i) es);
               items := items s ++ take i es |}).
Proof.
  revert s i. induction es as [|x es IH]; intros s i Hi Hlt Hf; [done|].
  simpl. unfold bind. destruct i as [|i]; simpl in *.
  - injection Hi as ->. rewrite app_nil_r in Hf. rewrite (request_fault _ _ e Hf).
    by rewrite app_nil_r.
  - rewrite request_ok.
    2:{ specialize (Hlt 0 x ltac:(lia) eq_refl). simpl in Hlt. by rewrite app_nil_r in Hlt. }
    rewrite (IH _ i Hi); simpl.
    + by rewrite <- !app_assoc.
    + intros j d Hj Hd. specialize (Hlt (S j) d ltac:(lia) Hd). simpl in Hlt.
      by rewrite <- app_assoc.
    + by rewrite <- app_assoc.
Qed.

Lemma add_unfold self nodes s :
  nodes <> [] ->
  add env self nodes s =
  match build_entries self nodes [] [] with
  | Raise e => (Raise e, s)
  | Ok (ids, data_to_insert) =>
    match upsert_all env data_to_insert s with
    | (Ok _, s') => (Ok ids, s')
    | (Raise e, s') => (Raise e, s')
    end
  end.
Proof.
  intros Hn. destruct nodes as [|n nodes]; [done|].
  unfold add, bind, lift, ret.
  destruct (build_entries _ _ _ _) as [[ids data]|]; [|done].
  by destruct (upsert_all env data s) as [[[]|]].
Qed.

(** C7. For a non-empty list of nodes, what [add] returns is the list of the
    node ids in the order of the nodes; and it does return, having upserted one
    document per node, when every document can be built (embedding set, flat
    metadata) and the service rejects none of the upserts. *)
Theorem add_returns_ids_in_order self nodes s :
  nodes <> [] ->
  (forall ids s', add env self nodes s = (Ok ids, s') -> ids = node_id <$> nodes) /\
  (forall es,
     Forall2 (fun n d => entry_of self n = Ok d) nodes es ->
     (forall j item, es !! j = Some item ->
        fault env (calls s ++ (upsert_item <$> take j es)) (upsert_item item) = None) ->
     add env self nodes s =
     (Ok (node_id <$> nodes),
      {| calls := calls s ++ (upsert_item <$> es); items := items s ++ es |})).
Proof.
  intros Hn. split.
  - intros ids s'. rewrite add_unfold by done.
    destruct (build_entries _ _ _ _) as [[ids0 data]|] eqn:Hb; [|done].
    apply build_entries_inv in Hb as [-> _].
    destruct (upsert_all env data s) as [[[]|]]; [|done]. by intros [= <- _].
  - intros es Hes Hf. rewrite add_unfold by done.
    rewrite (build_entries_ok _ _ es) by done. simpl.
    by rewrite upsert_all_ok.
Qed.

(** C8. The documents are upserted one at a time in the order of the nodes.
    When the upsert of the document at position [i] (counting from 0) is the
    first the service rejects, [add] raises that error, the service has
    received the upserts of the documents up to position [i] and no other
    request, and exactly the [i] documents before it have been written: there
    is no rollback. *)
Theorem add_partial_failure self nodes es s i item e :
  Forall2 (fun n d => entry_of self n = Ok d) nodes es ->
  es !! i = Some item ->
  (forall j d, j < i -> es !! j = Some d ->
     fault env (calls s ++ (upsert_item <$> take j es)) (upsert_item d) = None) ->
  fault env (calls s ++ (upsert_item <$> take i es)) (upsert_item item) = Some e ->
  add env self nodes s =
  (Raise e, {| calls := calls s ++ (upsert_item <$> take (S i) es);
               items := items s ++ take i es |}).
Proof.
  intros Hes Hi Hlt Hf.
  assert (nodes <> []) as Hn.
  { intros ->. apply Forall2_nil_inv_l in Hes as ->. done. }
  rewrite add_unfold by done.
  rewrite (build_entries_ok _ _ es) by done. simpl.
  by rewrite (upsert_all_fault es s i item e).
Qed.

(** ** Reading rows back *)

Lemma collect_rows_inv self rows ns js ss r :
  collect_rows self rows ns js ss = Ok r ->
  exists ts,
    Forall2 (fun item t => read_row self item = Ok t) rows ts /\
    nodes r = ns ++ ((fun t => t.1.1) <$> ts) /\
    ids r = js ++ ((fun t => t.1.2) <$> ts) /\
    similarities r = ss ++ (snd <$> ts).
Proof.
  revert ns js ss. induction rows as [|item rest IH]; intros ns js ss H; simpl in *.
  - injection H as <-. exists []. simpl. by rewrite !app_nil_r.
  - destruct (read_row self item) as [[[n i] sc]|] eqn:Hr; simpl in H; [|done].
    apply IH in H as (ts & Hts & -> & -> & ->).
    exists ((n, i, sc) :: ts). rewrite <- !app_assoc. by repeat split; [constructor|..].
Qed.

Lemma collect_rows_lookup self rows r i item :
  collect_rows self rows [] [] [] = Ok r ->
  rows !! i = Some item ->
  exists n node_id score,
    read_row self item = Ok (n, node_id, score) /\
    nodes r !! i = Some n /\ ids r !! i = Some node_id /\
    similarities r !! i = Some score.
Proof.
  intros H Hi. apply collect_rows_inv in H as (ts & Hts & Hn & Hj & Hs).
  simpl in *. destruct (Forall2_lookup_l _ _ _ _ _ Hts Hi) as ([[n j] sc] & Ht & Hr).
  exists n, j, sc. rewrite Hn, Hj, Hs, !list_lookup_fmap, Ht. done.
Qed.

Lemma metadata_dict_to_node_blob node :
  metadata_dict_to_node (blob_of node) =
  Ok {| node_id := node_id node; embedding := None; text := VStr "";
        metadata := metadata node |}.
Proof.
  unfold metadata_dict_to_node, blob_of, get. by rewrite lookup_insert_eq.
Qed.

Lemma document_of_metadata self k node e :
  document_of self k node e !! _metadata_key self = Some (blob_of node).
Proof. unfold document_of. by rewrite lookup_insert_eq. Qed.

Lemma document_of_text self k node e :
  _text_key self <> _metadata_key self ->
  document_of self k node e !! _text_key self = Some (py_or (text node) (VStr "")).
Proof.
  intros H. unfold document_of. by rewrite lookup_insert_ne, lookup_insert_eq.
Qed.

Lemma document_of_id self k node e :
  is_Some (document_of self k node e !! _id_key self).
Proof.
  unfold document_of.
  destruct (decide (_metadata_key self = _id_key self)) as [E|E];
    [by rewrite E, lookup_insert_eq|rewrite lookup_insert_ne by done].
  destruct (decide (_text_key self = _id_key self)) as [E'|E'];
    [by rewrite E', lookup_insert_eq|rewrite lookup_insert_ne by done].
  destruct (decide (k = _id_key self)) as [E''|E''];
    [by rewrite E'', lookup_insert_eq|rewrite lookup_insert_ne by done].
  by rewrite lookup_insert_eq.
Qed.

(** A row that carries a stored document and its score reads back as the node
    of the document's blob, with the document's text as its content. *)
Lemma read_row_document self k node e score :
  _text_key self <> _metadata_key self ->
  _text_key self <> "SimilarityScore" ->
  _metadata_key self <> "SimilarityScore" ->
  exists row_id,
    read_row self (VDict (<["SimilarityScore" := score]> (document_of self k node e))) =
    Ok ({| node_id := node_id node; embedding := None;
           text := py_or (text node) (VStr ""); metadata := metadata node |},
        row_id, score).
Proof.
  intros Htm Ht Hm. destruct (document_of_id self k node e) as [i Hi].
  exists (if decide ("SimilarityScore" = _id_key self) then score else i).
  unfold read_row, getitem.
  rewrite lookup_insert_ne, document_of_metadata by done. simpl.
  rewrite metadata_dict_to_node_blob. simpl.
  rewrite lookup_insert_ne, document_of_text by done. simpl.
  rewrite lookup_insert. case_decide; simpl.
  - by rewrite lookup_insert_eq.
  - by rewrite Hi, lookup_insert_eq.
Qed.

Lemma read_row_inv self item n row_id score :
  read_row self item = Ok (n, row_id, score) ->
  exists blob n0 content,
    getitem item (_metadata_key self) = Ok blob /\
    metadata_dict_to_node blob = Ok n0 /\
    getitem item (_text_key self) = Ok content /\
    n = set_content n0 content /\
    getitem item (_id_key self) = Ok row_id /\
    getitem item "SimilarityScore" = Ok score.
Proof.
  unfold read_row.
  destruct (getitem item (_metadata_key self)) as [blob|] eqn:Hb; simpl; [|done].
  destruct (metadata_dict_to_node blob) as [n0|] eqn:Hn0; simpl; [|done].
  destruct (getitem item (_text_key self)) as [content|] eqn:Ht; simpl; [|done].
  destruct (getitem item (_id_key self)) as [i|] eqn:Hi; simpl; [|done].
  destruct (getitem item "SimilarityScore") as [sc|] eqn:Hs; simpl; [|done].
  intros [= <- <- <-]. by exists blob, n0, content.
Qed.

(** C6. Round trip of a node with text "hello" and metadata {"a": 1}.  Once
    [add] has stored it, the document holds the text under the text key and,
    under the metadata key, a blob without the text, from which the metadata
    is reconstructed.  A query that returns, and whose rows include that
    document, yields at the row's position the row's score and a node whose
    content is "hello", whose metadata is {"a": 1} and whose id is that of the
    stored node; and such a query does return when the service accepts it and
    yields that row alone.  On read, for any row whatever, the node is the one
    rebuilt from the blob under the row's metadata key, with the row's text
    field re-attached as its content. *)
Theorem add_then_query_round_trip self k node e s ids0 s1 :
  _embedding_key self = VStr k ->
  _text_key self <> _metadata_key self ->
  _text_key self <> "SimilarityScore" ->
  _metadata_key self <> "SimilarityScore" ->
  text node = VStr "hello" ->
  metadata node = {[ "a" := VInt 1 ]} ->
  embedding node = Some e ->
  add env self [node] s = (Ok ids0, s1) ->
  let doc := document_of self k node e in
  items s1 = items s ++ [VDict doc] /\
  doc !! _text_key self = Some (VStr "hello") /\
  (exists blob,
     doc !! _metadata_key self = Some blob /\
     metadata_dict_to_node blob =
     Ok {| node_id := node_id node; embedding := None; text := VStr "";
           metadata := {[ "a" := VInt 1 ]} |}) /\
  (forall q s2 r s3 i score,
     query env self q s2 = (Ok r, s3) ->
     rows env s2 (similarity_call q) !! i =
       Some (VDict (<["SimilarityScore" := score]> doc)) ->
     exists n,
       nodes r !! i = Some n /\
       get_content n = VStr "hello" /\
       metadata n = {[ "a" := VInt 1 ]} /\
       node_id n = node_id node /\
       embedding n = None /\
       similarities r !! i = Some score) /\
  (forall q s2 score,
     fault env (calls s2) (similarity_call q) = None ->
     rows env s2 (similarity_call q) = [VDict (<["SimilarityScore" := score]> doc)] ->
     exists r,
       query env self q s2 =
         (Ok r, {| calls := calls s2 ++ [similarity_call q]; items := items s2 |}) /\
       length (nodes r) = 1) /\
  (forall q s2 r s3 i item,
     query env self q s2 = (Ok r, s3) ->
     rows env s2 (similarity_call q) !! i = Some item ->
     exists n blob n0,
       nodes r !! i = Some n /\
       getitem item (_metadata_key self) = Ok blob /\
       metadata_dict_to_node blob = Ok n0 /\
       getitem item (_text_key self) = Ok (get_content n) /\
       n = set_content n0 (get_content n)).
Proof.
  intros Hk Htm Ht Hm Htext Hmeta He Hadd doc.
  assert (entry_of self node = Ok (VDict doc)) as Hentry.
  { apply entry_of_ok; [done..|]. by rewrite Hmeta. }
  split; [|split; [|split; [|split; [|split]]]].
  - rewrite add_unfold in Hadd by done. simpl in Hadd. rewrite Hentry in Hadd.
    simpl in Hadd. unfold bind, request, ret in Hadd.
    destruct (fault env _ _); [done|]. by injection Hadd as _ <-.
  - subst doc. by rewrite document_of_text, Htext.
  - exists (blob_of node). split; [apply document_of_metadata|].
    by rewrite metadata_dict_to_node_blob, Hmeta.
  - intros q s2 r s3 i score Hq Hrow.
    unfold query in Hq. rewrite _query_unfold in Hq. unfold fetch in Hq.
    destruct (request env _ s2) as [[[]|] s2']; [|done].
    injection Hq as Hq _.
    destruct (collect_rows_lookup _ _ _ _ _ Hq Hrow) as (n & j & sc & Hr & Hn & _ & Hs).
    destruct (read_row_document self k node e score Htm Ht Hm) as [j' Hr'].
    fold doc in Hr'. rewrite Hr' in Hr. injection Hr as <- _ <-.
    eexists. split; [exact Hn|]. simpl. by rewrite Htext, Hmeta.
  - intros q s2 score Hf Hrows.
    destruct (read_row_document self k node e score Htm Ht Hm) as [j Hr].
    fold doc in Hr.
    unfold query. rewrite _query_unfold. unfold fetch.
    rewrite (request_ok _ s2 Hf), Hrows. simpl. rewrite Hr. simpl.
    eexists. split; [reflexivity|done].
  - intros q s2 r s3 i item Hq Hrow.
    unfold query in Hq. rewrite _query_unfold in Hq. unfold fetch in Hq.
    destruct (request env _ s2) as [[[]|] s2']; [|done].
    injection Hq as Hq _.
    destruct (collect_rows_lookup _ _ _ _ _ Hq Hrow) as (n & j & sc & Hr & Hn & _).
    destruct (read_row_inv _ _ _ _ _ Hr)
      as (blob & n0 & content & Hb & Hn0 & Hc & -> & _).
    by exists (set_content n0 content), blob, n0.
Qed.

(** The request a query sends does not depend on the adapter at all. *)
Lemma query_request_independent_of_adapter self self' q s :
  calls (snd (query env self q s)) = calls (snd (query env self' q s)).
Proof.
  unfold query. rewrite !_query_unfold.
  by destruct (fetch env (similarity_call q) s) as [[]].
Qed.

End Properties.

(** ** The embedding key and the query text *)

(** The embedding key is the declared path without its first character,
    whatever that character is. *)
Lemma embedding_key_drops_first_character c rest :
  embedding_key_of (embedding_policy (String c rest)) = Ok (VStr rest).
Proof. reflexivity. Qed.

(** C1. For the accepted configuration whose embedding path is "/vec",
    construction derives the embedding key "vec" and [add] stores the
    embedding of a node under "vec", the document having no "embedding" field;
    yet the request of a query is the literal text, which computes and orders
    by the distance to [c.embedding] and names no [c.vec]. *)
Theorem query_ignores_the_embedding_key :
  fst (init echo (sample_args "/vec" (VDict ∅) true) fresh) = Ok vec_self /\
  _embedding_key vec_self = VStr "vec" /\
  entry_of vec_self hello = Ok (VDict vec_doc) /\
  add echo vec_self [hello] fresh =
    (Ok ["n1"], {| calls := [upsert_item (VDict vec_doc)]; items := [VDict vec_doc] |}) /\
  vec_doc !! "vec" = Some (VList (VFloat <$> sample_embedding)) /\
  vec_doc !! "embedding" = None /\
  (forall q s,
     calls (snd (query echo vec_self q s)) =
     calls s ++ [query_items query_text
                   [parameter "@k" (VInt (similarity_top_k q));
                    parameter "@embedding" (query_embedding q)] true]) /\
  contains "ORDER BY VectorDistance(c.embedding,@embedding)" query_text = true /\
  contains "c.vec" query_text = false.
Proof.
  repeat split; by vm_compute.
Qed.

(** ** The theorems at concrete inputs *)

(** Construction with the default database properties, on an otherwise valid
    configuration. *)
Lemma init_without_database_properties_raises_witness :
  let a := default_args (Some Client) (embedding_policy "/embedding")
             (index_policy "/embedding") container_properties in
  cosmos_database_properties a = VNone /\
  validate a = Ok tt /\
  init echo a fresh = (Raise AttributeError, fresh).
Proof.
  intros a. split; [reflexivity|]. split; [reflexivity|].
  apply (proj2 (init_without_database_properties_raises echo a fresh eq_refl)
           (VStr "embedding") Client); reflexivity.
Defined.

(** A query over the service that holds the document of [hello]. *)
Lemma query_result_lengths_witness :
  query echo (sample_self "embedding") (sample_query 1) stored =
    (Ok hello_result,
     {| calls := calls stored ++ [similarity_call (sample_query 1)];
        items := items stored |}) /\
  length (nodes hello_result) = length (ids hello_result) /\
  length (ids hello_result) = length (similarities hello_result) /\
  length (nodes hello_result) =
    length (rows echo stored (similarity_call (sample_query 1))).
Proof.
  assert (query echo (sample_self "embedding") (sample_query 1) stored =
          (Ok hello_result,
           {| calls := calls stored ++ [similarity_call (sample_query 1)];
              items := items stored |})) as H by (vm_compute; reflexivity).
  split; [exact H|].
  exact (query_result_lengths echo _ _ _ _ _ H).
Defined.

(** Construction without [create_container]: both requests are sent, and an
    empty [vectorEmbeddings] list fails. *)
Lemma init_without_create_container_witness :
  let a := sample_args "/embedding" (VDict ∅) false in
  let b := embeddings_args (VList []) false in
  let db := create_database_if_not_exists "vectorSearchDB"
              VNone VNone VNone VNone VNone in
  let ct := create_container_if_not_exists "vectorSearchContainer"
              (VStr "/id") (index_policy "/embedding")
              VNone VNone VNone VNone VNone VNone VNone VNone VNone VNone
              (embedding_policy "/embedding") in
  (create_container a = false /\
   calls (snd (init echo a fresh)) = [db; ct] /\
   fst (init echo a fresh) = Ok (self_of a Client (VStr "embedding"))) /\
  (create_container b = false /\
   validate b = Ok tt /\
   init echo b fresh = (Raise IndexError, fresh)).
Proof.
  intros a b db ct.
  destruct (init_without_create_container echo a fresh eq_refl) as (_ & _ & Hp).
  destruct (Hp (VStr "embedding") Client db ct eq_refl eq_refl eq_refl eq_refl eq_refl)
    as (Hcalls & _ & Hself).
  destruct (init_without_create_container echo b fresh eq_refl) as (Hv & He & _).
  split.
  - split; [reflexivity|]. split; [exact Hcalls|exact Hself].
  - split; [reflexivity|]. split; [exact Hv|].
    exact (He {[ "vectorEmbeddings" := VList [] ]} eq_refl eq_refl).
Defined.

(** Adding three nodes to a service that rejects nothing. *)
Lemma add_returns_ids_in_order_witness :
  three_nodes <> [] /\
  add echo (sample_self "embedding") three_nodes fresh =
    (Ok ["n1"; "n2"; "n3"],
     {| calls := upsert_item <$> three_docs; items := three_docs |}) /\
  (forall ids0 s',
     add echo (sample_self "embedding") three_nodes fresh = (Ok ids0, s') ->
     ids0 = ["n1"; "n2"; "n3"]).
Proof.
  assert (three_nodes <> []) as Hn by discriminate.
  destruct (add_returns_ids_in_order echo (sample_self "embedding") three_nodes fresh Hn)
    as [Hids Hadd].
  split; [exact Hn|]. split; [|exact Hids].
  apply (Hadd three_docs).
  - repeat constructor.
  - intros j item _. reflexivity.
Defined.

(** Adding three nodes to a service that rejects the second request: the first
    document is written, the second and the third are not. *)
Lemma add_partial_failure_witness :
  add (flaky 1) (sample_self "embedding") three_nodes fresh =
    (Raise (CosmosHttpResponseError 429),
     {| calls := upsert_item <$> take 2 three_docs; items := take 1 three_docs |}).
Proof.
  apply (add_partial_failure (flaky 1) (sample_self "embedding") three_nodes three_docs
           fresh 1
           (VDict (document_of (sample_self "embedding") "embedding"
                     (node_with_id "n2" hello) sample_embedding))).
  - repeat constructor.
  - reflexivity.
  - intros [|j] d Hj _; [reflexivity|]. exfalso. inversion Hj as [|? Hj']. inversion Hj'.
  - reflexivity.
Defined.

(** The round trip of [hello] through the service that yields every stored
    document. *)
Lemma add_then_query_round_trip_witness :
  let self := sample_self "embedding" in
  let zero := VFloat (S754_zero false) in
  let row := VDict (<["SimilarityScore" := zero]> hello_doc) in
  add echo self [hello] fresh = (Ok ["n1"], stored) /\
  query echo self (sample_query 1) stored =
    (Ok hello_result,
     {| calls := calls stored ++ [similarity_call (sample_query 1)];
        items := items stored |}) /\
  items stored = [VDict hello_doc] /\
  hello_doc !! "text" = Some (VStr "hello") /\
  (exists n,
     nodes hello_result !! 0 = Some n /\
     get_content n = VStr "hello" /\
     metadata n = {[ "a" := VInt 1 ]} /\
     node_id n = "n1" /\
     embedding n = None /\
     similarities hello_result !! 0 = Some zero) /\
  (exists n blob n0,
     nodes hello_result !! 0 = Some n /\
     getitem row "metadata" = Ok blob /\
     metadata_dict_to_node blob = Ok n0 /\
     getitem row "text" = Ok (get_content n) /\
     n = set_content n0 (get_content n)).
Proof.
  intros self zero row.
  assert (add echo self [hello] fresh = (Ok ["n1"], stored))
    as Hadd by (vm_compute; reflexivity).
  assert (query echo self (sample_query 1) stored =
          (Ok hello_result,
           {| calls := calls stored ++ [similarity_call (sample_query 1)];
              items := items stored |})) as Hq by (vm_compute; reflexivity).
  destruct (add_then_query_round_trip echo self "embedding" hello
              sample_embedding fresh ["n1"] stored eq_refl
              ltac:(discriminate) ltac:(discriminate) ltac:(discriminate)
              eq_refl eq_refl eq_refl Hadd)
    as (Hitems & Htext & _ & Hread & _ & Hrow).
  split; [exact Hadd|]. split; [exact Hq|]. split; [exact Hitems|].
  split; [exact Htext|]. split.
  - exact (Hread (sample_query 1) stored hello_result _ 0 zero Hq eq_refl).
  - exact (Hrow (sample_query 1) stored hello_result _ 0 row Hq eq_refl).
Defined.

(** ** Construction, further *)

Section Construction.

Variable env : service.

Lemma check_vector_indexes_iff d :
  check_vector_indexes d = Ok tt <-> declares_nonempty d "vectorIndexes".
Proof.
  unfold check_vector_indexes, declares_nonempty. split.
  - destruct d as [| | | | | |m]; try done. simpl.
    destruct (m !! "vectorIndexes") as [v|] eqn:Hm; simpl; [|done].
    destruct (is_None v); [done|].
    destruct (len v) as [[|n]|] eqn:Hl; simpl; try done.
    intros _. by exists m, v, n.
  - intros (m & v & n & -> & Hm & Hl). simpl. rewrite Hm. simpl.
    assert (is_None v = false) as -> by (by destruct v).
    by rewrite Hl.
Qed.

Lemma check_vector_embeddings_iff d :
  check_vector_embeddings d = Ok tt <-> declares_nonempty d "vectorEmbeddings".
Proof.
  unfold check_vector_embeddings, declares_nonempty. split.
  - destruct d as [| | | | | |m]; try done. simpl.
    destruct (m !! "vectorEmbeddings") as [v|] eqn:Hm; simpl; [|done].
    destruct (len v) as [[|n]|] eqn:Hl; simpl; try done.
    intros _. by exists m, v, n.
  - intros (m & v & n & -> & Hm & Hl). simpl. rewrite Hm. simpl. by rewrite Hl.
Qed.

Lemma check_partition_key_iff d :
  check_partition_key d = Ok tt <-> declares_partition_key d.
Proof.
  unfold check_partition_key, declares_partition_key. split.
  - destruct d as [| | | | | |m]; try done. simpl.
    destruct (m !! "partition_key") as [v|] eqn:Hm; simpl; [|done].
    destruct v; try done; intros _; by eexists _, _.
  - intros (m & v & -> & Hm & Hv). simpl. rewrite Hm. simpl. by destruct v.
Qed.

(** X1. What the validation accepts, exactly: either [create_container] is
    unset, or the indexing policy is a dictionary whose "vectorIndexes" entry
    has a non-zero length, the embedding policy is a dictionary whose
    "vectorEmbeddings" entry has a non-zero length, and the container
    properties are a dictionary whose "partition_key" entry is not null.  The
    entries are counted, never looked into. *)
Theorem validate_Ok_iff a :
  validate a = Ok tt <->
  create_container a = false \/
  (declares_nonempty (indexing_policy a) "vectorIndexes" /\
   declares_nonempty (vector_embedding_policy a) "vectorEmbeddings" /\
   declares_partition_key (cosmos_container_properties a)).
Proof.
  unfold validate. destruct (create_container a); [|by split; [left|]].
  rewrite <- check_vector_indexes_iff, <- check_vector_embeddings_iff,
    <- check_partition_key_iff.
  destruct (check_vector_indexes _) as [[]|]; simpl; [|by split; [|intros [|[]]]].
  destruct (check_vector_embeddings _) as [[]|]; simpl; [|by split; [|intros [|(_ & ? & _)]]].
  split; [by right|]. by intros [|(_ & _ & ?)].
Qed.

(** X4. With [create_container] set, an entry the checks read with a
    subscript and that is absent from its dictionary surfaces as the
    [KeyError] of that subscript, not as a [ValueError], and still before any
    request. *)
Theorem init_absent_entry a s :
  create_container a = true ->
  (forall m, indexing_policy a = VDict m -> m !! "vectorIndexes" = None ->
     init env a s = (Raise (KeyError (VStr "vectorIndexes")), s)) /\
  (forall m, check_vector_indexes (indexing_policy a) = Ok tt ->
     vector_embedding_policy a = VDict m -> m !! "vectorEmbeddings" = None ->
     init env a s = (Raise (KeyError (VStr "vectorEmbeddings")), s)) /\
  (forall m, check_vector_indexes (indexing_policy a) = Ok tt ->
     check_vector_embeddings (vector_embedding_policy a) = Ok tt ->
     cosmos_container_properties a = VDict m -> m !! "partition_key" = None ->
     init env a s = (Raise (KeyError (VStr "partition_key")), s)).
Proof.
  intros Hc. repeat split.
  - intros m Hd Hm. apply init_validate_raise. unfold validate, check_vector_indexes.
    rewrite Hc, Hd. simpl. by rewrite Hm.
  - intros m H1 Hd Hm. apply init_validate_raise. unfold validate.
    rewrite Hc, H1. simpl. unfold check_vector_embeddings. rewrite Hd. simpl.
    by rewrite Hm.
  - intros m H1 H2 Hd Hm. apply init_validate_raise. unfold validate.
    rewrite Hc, H1, H2. simpl. unfold check_partition_key. rewrite Hd. simpl.
    by rewrite Hm.
Qed.

(** X6. The embedding key is read from the first "vectorEmbeddings" entry
    alone, and it is that entry's path without its first character, whatever
    the character: a path that does not start with the separator loses its
    first letter, and the empty path gives the empty key. *)
Theorem embedding_key_of_first_entry m e rest :
  m !! "vectorEmbeddings" = Some (VList (VDict e :: rest)) ->
  (forall c p, e !! "path" = Some (VStr (String c p)) ->
     embedding_key_of (VDict m) = Ok (VStr p)) /\
  (e !! "path" = Some (VStr "") -> embedding_key_of (VDict m) = Ok (VStr "")).
Proof.
  intros Hm. unfold embedding_key_of. simpl. rewrite Hm. simpl.
  split; [intros c p Hp|intros Hp]; by rewrite Hp.
Qed.

(** X7. The validation does not look for the path: when the first
    "vectorEmbeddings" entry is a dictionary without "path", a configuration
    that passes the validation fails construction with [KeyError] "path",
    before any request. *)
Theorem init_first_entry_without_path a s m e rest :
  validate a = Ok tt ->
  vector_embedding_policy a = VDict m ->
  m !! "vectorEmbeddings" = Some (VList (VDict e :: rest)) ->
  e !! "path" = None ->
  init env a s = (Raise (KeyError (VStr "path")), s).
Proof.
  intros Hv Hd Hm Hp. rewrite init_unfold, Hv. unfold embedding_key_of.
  rewrite Hd. simpl. rewrite Hm. simpl. by rewrite Hp.
Qed.

(** X8. Without a client ([cosmos_client=None]) the client attribute is never
    set: construction raises without sending any request, and the exception is
    the [AttributeError] of the unset attribute when the validation and the
    embedding key pass. *)
Theorem init_without_client a s :
  cosmos_client a = None ->
  (exists e, init env a s = (Raise e, s)) /\
  (forall k,
     validate a = Ok tt ->
     embedding_key_of (vector_embedding_policy a) = Ok k ->
     init env a s = (Raise AttributeError, s)).
Proof.
  intros Hc. split.
  - rewrite init_unfold, Hc.
    destruct (validate a); [|by eauto].
    destruct (embedding_key_of _); by eauto.
  - intros k Hv Hk. by rewrite init_unfold, Hv, Hk, Hc.
Qed.

Lemma database_call_inv a db :
  database_call a = Ok db ->
  exists m, cosmos_database_properties a = VDict m.
Proof.
  unfold database_call. destruct (cosmos_database_properties a); try done. by eexists.
Qed.

Lemma container_call_inv a ct :
  container_call a = Ok ct ->
  exists m pk, cosmos_container_properties a = VDict m /\ m !! "partition_key" = Some pk.
Proof.
  unfold container_call. destruct (cosmos_container_properties a) as [| | | | | |m]; try done.
  simpl. destruct (m !! "partition_key") as [pk|] eqn:Hm; [|done]. by eexists _, _.
Qed.

Lemma database_call_persist a db l :
  database_call a = Ok db -> persist db l = l.
Proof.
  intros H. destruct (database_call_inv a db H) as [m Hm].
  rewrite (database_call_dict a m Hm) in H. by injection H as <-.
Qed.

Lemma container_call_persist a ct l :
  container_call a = Ok ct -> persist ct l = l.
Proof.
  intros H. destruct (container_call_inv a ct H) as (m & pk & Hm & Hpk).
  rewrite (container_call_dict a m pk Hm Hpk) in H. by injection H as <-.
Qed.

(** X9. On a configuration that passes the validation, with a client, a
    derivable embedding key, dictionaries for both property arguments and a
    partition key, and a service that accepts both requests, construction
    returns the adapter.  The database request carries the database name and
    the five optional database properties, the container request the
    container name, the partition key, the two policies unmodified and the ten
    optional container properties; an optional property that the dictionary
    lacks is passed as [None].  Nothing is written. *)
Theorem init_succeeds a s k c dm cm pk :
  validate a = Ok tt ->
  embedding_key_of (vector_embedding_policy a) = Ok k ->
  cosmos_client a = Some c ->
  cosmos_database_properties a = VDict dm ->
  cosmos_container_properties a = VDict cm ->
  cm !! "partition_key" = Some pk ->
  let db :=
    create_database_if_not_exists (database_name a)
      (default VNone (dm !! "offer_throughput"))
      (default VNone (dm !! "session_token"))
      (default VNone (dm !! "initial_headers"))
      (default VNone (dm !! "etag"))
      (default VNone (dm !! "match_condition")) in
  let ct :=
    create_container_if_not_exists (container_name a)
      pk (indexing_policy a)
      (default VNone (cm !! "default_ttl"))
      (default VNone (cm !! "offer_throughput"))
      (default VNone (cm !! "unique_key_policy"))
      (default VNone (cm !! "conflict_resolution_policy"))
      (default VNone (cm !! "analytical_storage_ttl"))
      (default VNone (cm !! "computed_properties"))
      (default VNone (cm !! "etag"))
      (default VNone (cm !! "match_condition"))
      (default VNone (cm !! "session_token"))
      (default VNone (cm !! "initial_headers"))
      (vector_embedding_policy a) in
  fault env (calls s) db = None ->
  fault env (calls s ++ [db]) ct = None ->
  init env a s =
  (Ok (self_of a c k), {| calls := calls s ++ [db; ct]; items := items s |}).
Proof.
  intros Hv Hk Hc Hd Hcp Hpk db ct Hf1 Hf2.
  rewrite init_unfold, Hv, Hk, Hc, (database_call_dict a dm Hd),
    (container_call_dict a cm pk Hcp Hpk). simpl.
  fold db ct. rewrite (request_ok env db s Hf1). simpl.
  rewrite (request_ok env ct) by done. simpl. by rewrite <- app_assoc.
Qed.

(** X10. Whenever construction returns an adapter, with or without
    [create_container]: the validation passed, a client was given, both
    property arguments are dictionaries, the container properties hold a
    partition key, the adapter holds the names and keys of the call with the
    embedding key read from the policy, and the service has received the
    database request and then the container request and nothing else. *)
Theorem init_Ok_inv a s self s' :
  init env a s = (Ok self, s') ->
  validate a = Ok tt /\
  exists k c dm cm pk db ct,
    embedding_key_of (vector_embedding_policy a) = Ok k /\
    cosmos_client a = Some c /\
    cosmos_database_properties a = VDict dm /\
    cosmos_container_properties a = VDict cm /\
    cm !! "partition_key" = Some pk /\
    database_call a = Ok db /\
    container_call a = Ok ct /\
    self = self_of a c k /\
    calls s' = calls s ++ [db; ct] /\
    items s' = items s.
Proof.
  rewrite init_unfold.
  destruct (validate a) as [[]|]; [|done].
  destruct (embedding_key_of _) as [k|]; [|done].
  destruct (cosmos_client a) as [c|]; simpl; [|done].
  destruct (database_call a) as [db|] eqn:Hdb; [|done].
  unfold request at 1.
  destruct (fault env (calls s) db); [done|].
  destruct (container_call a) as [ct|] eqn:Hct; [|done].
  unfold request. simpl.
  destruct (fault env (calls s ++ [db]) ct); [done|].
  intros [= <- <-]. split; [done|].
  destruct (database_call_inv a db Hdb) as [dm Hdm].
  destruct (container_call_inv a ct Hct) as (cm & pk & Hcm & Hpk).
  exists k, c, dm, cm, pk, db, ct. simpl.
  rewrite <- app_assoc, (container_call_persist a ct _ Hct),
    (database_call_persist a db _ Hdb). done.
Qed.

(** X11. Whatever the configuration and the service, construction writes no
    document, and what it sends is nothing, or the database request alone, or
    the database request followed by the container request. *)
Theorem init_requests a s :
  items (snd (init env a s)) = items s /\
  (calls (snd (init env a s)) = calls s \/
   exists db, database_call a = Ok db /\
     (calls (snd (init env a s)) = calls s ++ [db] \/
      exists ct, container_call a = Ok ct /\
        calls (snd (init env a s)) = calls s ++ [db; ct])).
Proof.
  rewrite init_unfold.
  destruct (validate a) as [[]|]; [|by split; [|left]].
  destruct (embedding_key_of _) as [k|]; [|by split; [|left]].
  destruct (client_attr _) as [c|]; [|by split; [|left]].
  destruct (database_call a) as [db|] eqn:Hdb; [|by split; [|left]].
  destruct (fault env (calls s) db) as [e|] eqn:Hf.
  { rewrite (request_fault env db s e Hf). simpl. split; [done|].
    right. exists db. split; [done|]. by left. }
  rewrite (request_ok env db s Hf), (database_call_persist a db _ Hdb).
  destruct (container_call a) as [ct|] eqn:Hct.
  2:{ simpl. split; [done|]. right. exists db. split; [done|]. by left. }
  destruct (fault env (calls s ++ [db]) ct) as [e|] eqn:Hf2.
  - rewrite (request_fault env ct _ e) by done. simpl. split; [done|].
    right. exists db. split; [done|]. right. exists ct. by rewrite <- app_assoc.
  - rewrite (request_ok env ct) by done. simpl.
    rewrite (container_call_persist a ct _ Hct). split; [done|].
    right. exists db. split; [done|]. right. exists ct. by rewrite <- app_assoc.
Qed.

(** X12. When the service rejects the database request, construction raises
    the service's error unchanged, the container request is never sent, and
    nothing is retried. *)
Theorem init_database_rejected a s k c db e :
  validate a = Ok tt ->
  embedding_key_of (vector_embedding_policy a) = Ok k ->
  cosmos_client a = Some c ->
  database_call a = Ok db ->
  fault env (calls s) db = Some e ->
  init env a s = (Raise e, {| calls := calls s ++ [db]; items := items s |}).
Proof.
  intros Hv Hk Hc Hdb Hf.
  by rewrite init_unfold, Hv, Hk, Hc, Hdb, (request_fault env db s e Hf).
Qed.

(** X13. Without [create_container] nothing checks the partition key before
    the first request: when the container properties are a dictionary without
    "partition_key", the database request is sent and accepted, and only then
    does construction raise [KeyError] "partition_key", the container request
    never being sent. *)
Theorem init_partition_key_absent_after_database a s k c db cm :
  create_container a = false ->
  embedding_key_of (vector_embedding_policy a) = Ok k ->
  cosmos_client a = Some c ->
  database_call a = Ok db ->
  fault env (calls s) db = None ->
  cosmos_container_properties a = VDict cm ->
  cm !! "partition_key" = None ->
  init env a s =
  (Raise (KeyError (VStr "partition_key")),
   {| calls := calls s ++ [db]; items := items s |}).
Proof.
  intros Hc Hk Hcl Hdb Hf Hcp Hpk.
  rewrite init_unfold, (validate_without_create_container a Hc), Hk, Hcl, Hdb,
    (request_ok env db s Hf), (database_call_persist a db _ Hdb).
  simpl. unfold container_call. rewrite Hcp. simpl. by rewrite Hpk.
Qed.

(** X14. The adapter keeps no record of what it has provisioned: constructing
    it a second time from the same arguments sends the same two requests
    again and returns the same adapter, the "if not exists" of the service
    being all that keeps the second construction from creating anything. *)
Theorem init_twice a s self s1 :
  never_rejects env ->
  init env a s = (Ok self, s1) ->
  exists db ct,
    calls s1 = calls s ++ [db; ct] /\
    init env a s1 =
    (Ok self, {| calls := calls s ++ [db; ct; db; ct]; items := items s |}).
Proof.
  intros Hnr. rewrite !init_unfold.
  destruct (validate a) as [[]|]; [|done].
  destruct (embedding_key_of _) as [k|]; [|done].
  destruct (client_attr _) as [c|]; [|done].
  destruct (database_call a) as [db|] eqn:Hdb; [|done].
  destruct (container_call a) as [ct|] eqn:Hct.
  - rewrite (request_ok env db s (Hnr _ _)), (request_ok env ct _ (Hnr _ _)).
    simpl. rewrite (database_call_persist a db _ Hdb),
      (container_call_persist a ct _ Hct).
    intros [= <- <-]. exists db, ct. simpl. rewrite <- app_assoc. split; [done|].
    rewrite (request_ok env db _ (Hnr _ _)), (request_ok env ct _ (Hnr _ _)).
    simpl. rewrite (database_call_persist a db _ Hdb),
      (container_call_persist a ct _ Hct), <- !app_assoc. done.
  - by rewrite (request_ok env db s (Hnr _ _)).
Qed.

End Construction.

(** ** Adding nodes, further *)

Section Adding.

Variable env : service.

Lemma build_entries_raise self done n rest e ids data :
  Forall (fun x => exists d, entry_of self x = Ok d) done ->
  entry_of self n = Raise e ->
  build_entries self (done ++ n :: rest) ids data = Raise e.
Proof.
  intros Hd Hn. revert ids data.
  induction Hd as [|x done [d Hx] _ IH]; intros ids data; simpl.
  - by rewrite Hn.
  - rewrite Hx. simpl. apply IH.
Qed.

Lemma upsert_all_app l1 l2 s :
  upsert_all env (l1 ++ l2) s =
  match upsert_all env l1 s with
  | (Ok _, s1) => upsert_all env l2 s1
  | (Raise e, s1) => (Raise e, s1)
  end.
Proof.
  revert s. induction l1 as [|x l1 IH]; intros s; simpl; [done|].
  unfold bind. destruct (request env (upsert_item x) s) as [[[]|e] s']; [apply IH|done].
Qed.

(** Either every document is written, or the service rejected one and exactly
    the documents before it are. *)
Lemma upsert_all_cases es s :
  upsert_all env es s =
    (Ok tt, {| calls := calls s ++ (upsert_item <$> es); items := items s ++ es |}) \/
  exists i e,
    i < length es /\
    upsert_all env es s =
    (Raise e, {| calls := calls s ++ (upsert_item <$> take (S i) es);
                 items := items s ++ take i es |}).
Proof.
  revert s. induction es as [|x es IH]; intros s.
  - left. simpl. unfold ret. destruct s. simpl. by rewrite !app_nil_r.
  - simpl. unfold bind.
    destruct (fault env (calls s) (upsert_item x)) as [e|] eqn:Hf.
    + right. exists 0, e. rewrite (request_fault env _ s e Hf). simpl.
      split; [lia|]. by rewrite app_nil_r.
    + rewrite (request_ok env _ s Hf). simpl.
      destruct (IH {| calls := calls s ++ [upsert_item x]; items := items s ++ [x] |})
        as [H|(i & e & Hi & H)]; rewrite H; simpl.
      * left. by rewrite <- !app_assoc.
      * right. exists (S i), e. split; [lia|]. by rewrite <- !app_assoc.
Qed.

(** X15. The document built for a node has the fields named by the four keys
    of the adapter and no other.  They are set in the order id, embedding,
    text, metadata, a later one overwriting an earlier one of the same key:
    the metadata blob is always there; the content (the empty string when the
    node has none) is there unless the text key is the metadata key; the
    embedding is there unless its key is the text key or the metadata key; the
    id is there unless its key is one of the other three. *)
Theorem entry_of_fields self node k blob emb :
  _embedding_key self = VStr k ->
  node_to_metadata_dict node true flat_metadata = Ok blob ->
  get_embedding node = Ok emb ->
  exists d : gmap string value,
    entry_of self node = Ok (VDict d) /\
    dom d = {[ _id_key self; k; _text_key self; _metadata_key self ]} /\
    d !! _metadata_key self = Some blob /\
    (_text_key self <> _metadata_key self ->
       d !! _text_key self = Some (py_or (get_content node) (VStr ""))) /\
    (k <> _text_key self -> k <> _metadata_key self -> d !! k = Some emb) /\
    (_id_key self <> k -> _id_key self <> _text_key self ->
     _id_key self <> _metadata_key self ->
       d !! _id_key self = Some (VStr (node_id node))).
Proof.
  intros Hk Hb He. unfold entry_of. rewrite Hb, He, Hk. simpl.
  eexists. split; [reflexivity|]. split; [|split; [|split; [|split]]].
  - apply set_eq. intros x.
    rewrite !dom_insert_L, dom_empty_L, !elem_of_union, !elem_of_singleton, elem_of_empty.
    tauto.
  - by rewrite lookup_insert_eq.
  - intros ?. rewrite lookup_insert_ne by done. by rewrite lookup_insert_eq.
  - intros ? ?. rewrite !lookup_insert_ne by done. by rewrite lookup_insert_eq.
  - intros ? ? ?. rewrite !lookup_insert_ne by done. by rewrite lookup_insert_eq.
Qed.

(** X16. Every document is built before the first upsert: when the document
    of some node cannot be built (no embedding, an unhashable embedding key),
    [add] raises the error of the first such node and sends no request at all,
    not even for the nodes before it. *)
Theorem add_build_failure self done n rest e s :
  Forall (fun x => exists d, entry_of self x = Ok d) done ->
  entry_of self n = Raise e ->
  add env self (done ++ n :: rest) s = (Raise e, s).
Proof.
  intros Hd Hn. rewrite add_unfold by (by destruct done).
  by rewrite (build_entries_raise self done n rest e [] [] Hd Hn).
Qed.

(** X17. The outcomes of [add] are three, whatever the nodes and the service.
    It raises with the service untouched (the list is empty, or a document
    cannot be built); or it returns the ids, having sent one upsert per node,
    in order, every document being written; or the service rejected the
    upsert at some position [i], the upserts of the documents up to [i] have
    been sent, the documents before [i] are written, and the service's error
    is raised.  It sends no other kind of request. *)
Theorem add_outcomes self nodes s :
  (exists e, add env self nodes s = (Raise e, s)) \/
  exists es,
    Forall2 (fun n d => entry_of self n = Ok d) nodes es /\
    (add env self nodes s =
       (Ok (node_id <$> nodes),
        {| calls := calls s ++ (upsert_item <$> es); items := items s ++ es |}) \/
     exists i e,
       i < length es /\
       add env self nodes s =
       (Raise e, {| calls := calls s ++ (upsert_item <$> take (S i) es);
                    items := items s ++ take i es |})).
Proof.
  destruct nodes as [|n nodes]; [left; by eexists|].
  rewrite add_unfold by done.
  destruct (build_entries _ _ _ _) as [[ids0 data]|e] eqn:Hb; [|left; by eexists].
  apply build_entries_inv in Hb as (-> & es & -> & Hes). simpl.
  right. exists es. split; [done|].
  destruct (upsert_all_cases es s) as [H|(i & e & Hi & H)]; rewrite H.
  - by left.
  - right. by exists i, e.
Qed.

(** X18. Adding two lists one after the other is adding their concatenation:
    when [add] returns on the first list and then on the second, it returns on
    the concatenation, from the first state, the concatenated ids and leaves
    the service in the same final state. *)
Theorem add_app self xs ys s ids1 s1 ids2 s2 :
  add env self xs s = (Ok ids1, s1) ->
  add env self ys s1 = (Ok ids2, s2) ->
  add env self (xs ++ ys) s = (Ok (ids1 ++ ids2), s2).
Proof.
  intros H1 H2.
  assert (xs <> []) as Hx by (by intros ->).
  assert (ys <> []) as Hy by (by intros ->).
  rewrite add_unfold in H1, H2 by done.
  rewrite add_unfold by (by destruct xs).
  destruct (build_entries self xs [] []) as [[i1 d1]|] eqn:Hb1; [|done].
  destruct (build_entries self ys [] []) as [[i2 d2]|] eqn:Hb2; [|done].
  apply build_entries_inv in Hb1 as (-> & es1 & -> & Hes1).
  apply build_entries_inv in Hb2 as (-> & es2 & -> & Hes2).
  simpl in *.
  rewrite (build_entries_ok self (xs ++ ys) (es1 ++ es2)) by (by apply Forall2_app).
  simpl. rewrite upsert_all_app.
  destruct (upsert_all env es1 s) as [[[]|] s1']; [|done].
  injection H1 as <- <-.
  destruct (upsert_all env es2 s1') as [[[]|] s2']; [|done].
  injection H2 as <- <-. by rewrite fmap_app.
Qed.

End Adding.

(** ** Querying, further *)

Section Querying.

Variable env : service.

Lemma fetch_ok c s :
  fault env (calls s) c = None ->
  (forall item, c <> upsert_item item) ->
  fetch env c s =
  (Ok (rows env s c), {| calls := calls s ++ [c]; items := items s |}).
Proof.
  intros Hf Hc. unfold fetch. rewrite (request_ok env c s Hf).
  assert (persist c (items s) = items s) as ->; [|done].
  destruct c; simpl; try done. by destruct (Hc item).
Qed.

Lemma collect_rows_raise self done item rest e ns js ss :
  Forall (fun x => exists t, read_row self x = Ok t) done ->
  read_row self item = Raise e ->
  collect_rows self (done ++ item :: rest) ns js ss = Raise e.
Proof.
  intros Hd Hi. revert ns js ss.
  induction Hd as [|x done [[[n i] sc] Hx] _ IH]; intros ns js ss; simpl.
  - by rewrite Hi.
  - rewrite Hx. simpl. apply IH.
Qed.

Lemma entry_of_inv self k node d :
  _embedding_key self = VStr k ->
  entry_of self node = Ok d ->
  exists e, embedding node = Some e /\ d = VDict (document_of self k node e).
Proof.
  intros Hk. unfold entry_of, node_to_metadata_dict, get_embedding. rewrite Hk.
  destruct (flat_metadata && _); simpl; [done|].
  destruct (embedding node) as [e|]; simpl; [|done].
  intros [= <-]. by exists e.
Qed.

Lemma read_row_document_id self k node e score :
  _id_key self <> k ->
  _id_key self <> _text_key self ->
  _id_key self <> _metadata_key self ->
  _id_key self <> "SimilarityScore" ->
  _text_key self <> _metadata_key self ->
  _text_key self <> "SimilarityScore" ->
  _metadata_key self <> "SimilarityScore" ->
  read_row self (with_score score (VDict (document_of self k node e))) =
  Ok (read_back node, VStr (node_id node), score).
Proof.
  intros Hik Hit Him His Htm Hts Hms. unfold read_row, with_score, getitem.
  rewrite lookup_insert_ne, document_of_metadata by done. simpl.
  rewrite metadata_dict_to_node_blob. simpl.
  rewrite lookup_insert_ne, document_of_text by done. simpl.
  rewrite lookup_insert_ne by done. unfold document_of at 1.
  rewrite !lookup_insert_ne by done. rewrite lookup_insert_eq. simpl.
  by rewrite lookup_insert_eq.
Qed.

Lemma collect_rows_documents self k nodes es scores ns js ss :
  _embedding_key self = VStr k ->
  _id_key self <> k ->
  _id_key self <> _text_key self ->
  _id_key self <> _metadata_key self ->
  _id_key self <> "SimilarityScore" ->
  _text_key self <> _metadata_key self ->
  _text_key self <> "SimilarityScore" ->
  _metadata_key self <> "SimilarityScore" ->
  Forall2 (fun n d => entry_of self n = Ok d) nodes es ->
  length scores = length nodes ->
  collect_rows self (zip_with with_score scores es) ns js ss =
  Ok {| nodes := ns ++ (read_back <$> nodes);
        similarities := ss ++ scores;
        ids := js ++ ((fun n => VStr (node_id n)) <$> nodes) |}.
Proof.
  intros Hk Hik Hit Him His Htm Hts Hms Hes. revert scores ns js ss.
  induction Hes as [|n d nodes es Hn _ IH]; intros scores ns js ss Hl.
  - destruct scores; [|done]. simpl. by rewrite !app_nil_r.
  - destruct scores as [|sc scores]; [done|]. simpl in *.
    destruct (entry_of_inv self k n d Hk Hn) as (e & _ & ->).
    rewrite read_row_document_id by done. simpl.
    rewrite IH by lia. by rewrite <- !app_assoc.
Qed.

(** X19. When the service rejects the query, [query] raises the service's
    error unchanged: the one request has been sent, nothing is retried and no
    partial result is returned. *)
Theorem query_rejected self q s e :
  fault env (calls s) (similarity_call q) = Some e ->
  query env self q s =
  (Raise e, {| calls := calls s ++ [similarity_call q]; items := items s |}).
Proof.
  intros Hf. unfold query. rewrite _query_unfold. unfold fetch.
  by rewrite (request_fault env _ s e Hf).
Qed.

(** X20. A result follows the rows of the service position by position,
    without sorting, dropping or rescaling anything: at the position of a row,
    the id is the row's field under the id key, the similarity is the row's
    "SimilarityScore" as it came, and the node is the one reconstructed from
    the row's metadata blob with the row's text as its content. *)
Theorem query_result_rows self q s r s' i item :
  query env self q s = (Ok r, s') ->
  rows env s (similarity_call q) !! i = Some item ->
  exists n row_id score blob n0,
    nodes r !! i = Some n /\
    ids r !! i = Some row_id /\
    similarities r !! i = Some score /\
    getitem item (_id_key self) = Ok row_id /\
    getitem item "SimilarityScore" = Ok score /\
    getitem item (_text_key self) = Ok (get_content n) /\
    getitem item (_metadata_key self) = Ok blob /\
    metadata_dict_to_node blob = Ok n0 /\
    node_id n = node_id n0 /\
    metadata n = metadata n0.
Proof.
  unfold query. rewrite _query_unfold. unfold fetch.
  destruct (request env _ s) as [[[]|] s1]; [|done].
  intros [= Hc _] Hi.
  destruct (collect_rows_lookup _ _ _ _ _ Hc Hi) as (n & j & sc & Hr & Hn & Hj & Hs).
  destruct (read_row_inv _ _ _ _ _ Hr) as (blob & n0 & content & Hb & Hn0 & Ht & -> & Hid & Hsc).
  by exists (set_content n0 content), j, sc, blob, n0.
Qed.

(** X21. One row that cannot be read fails the whole query, after the request
    has been sent: [query] raises the error of the first such row and returns
    none of the rows before it.  A row without the field named by the metadata
    key is such a row, with [KeyError] on that key. *)
Theorem query_unreadable_row self q s done item rest :
  fault env (calls s) (similarity_call q) = None ->
  rows env s (similarity_call q) = done ++ item :: rest ->
  Forall (fun x => exists t, read_row self x = Ok t) done ->
  (forall e,
     read_row self item = Raise e ->
     query env self q s =
     (Raise e, {| calls := calls s ++ [similarity_call q]; items := items s |})) /\
  (forall row,
     item = VDict row ->
     row !! _metadata_key self = None ->
     query env self q s =
     (Raise (KeyError (VStr (_metadata_key self))),
      {| calls := calls s ++ [similarity_call q]; items := items s |})).
Proof.
  intros Hf Hrows Hd.
  assert (forall e, read_row self item = Raise e ->
            query env self q s =
            (Raise e, {| calls := calls s ++ [similarity_call q]; items := items s |}))
    as H.
  { intros e He. unfold query. rewrite _query_unfold, fetch_ok, Hrows by done.
    by rewrite (collect_rows_raise self done item rest e). }
  split; [exact H|].
  intros row -> Hm. apply H. unfold read_row, getitem. by rewrite Hm.
Qed.

(** X22. Round trip of a whole list.  For an adapter whose id, text and
    metadata keys and the "SimilarityScore" field are pairwise distinct and
    whose id key is not the embedding key: when the service accepts the query
    and yields, each with a score, the documents that [add] builds for a list
    of nodes, the query returns the ids of the nodes (the ids [add] returns),
    the scores as given, and for each node a node with the same id, content
    (the empty string if it had none) and metadata, and without embedding. *)
Theorem add_query_round_trip_all self k nodes es scores q s :
  _embedding_key self = VStr k ->
  _id_key self <> k ->
  _id_key self <> _text_key self ->
  _id_key self <> _metadata_key self ->
  _id_key self <> "SimilarityScore" ->
  _text_key self <> _metadata_key self ->
  _text_key self <> "SimilarityScore" ->
  _metadata_key self <> "SimilarityScore" ->
  Forall2 (fun n d => entry_of self n = Ok d) nodes es ->
  length scores = length nodes ->
  fault env (calls s) (similarity_call q) = None ->
  rows env s (similarity_call q) = zip_with with_score scores es ->
  query env self q s =
  (Ok {| nodes := read_back <$> nodes;
         similarities := scores;
         ids := (fun n => VStr (node_id n)) <$> nodes |},
   {| calls := calls s ++ [similarity_call q]; items := items s |}).
Proof.
  intros Hk Hik Hit Him His Htm Hts Hms Hes Hl Hf Hrows.
  unfold query. rewrite _query_unfold, fetch_ok, Hrows by done.
  by rewrite (collect_rows_documents self k nodes es scores [] [] []).
Qed.

End Querying.

(** ** The further theorems at concrete inputs *)

Lemma validate_Ok_iff_witness :
  validate (sample_args "/embedding" (VDict ∅) true) = Ok tt /\
  declares_nonempty (index_policy "/embedding") "vectorIndexes".
Proof.
  destruct (proj1 (validate_Ok_iff (sample_args "/embedding" (VDict ∅) true)) eq_refl)
    as [H|(H & _ & _)]; [discriminate H|].
  split; [reflexivity|exact H].
Defined.

Lemma init_fail_fast_witness :
  let a := configuration (Some Client) (embedding_policy "/embedding") (VDict ∅)
             container_properties (VDict ∅) true in
  create_container a = true /\
  missing_or_empty (indexing_policy a) "vectorIndexes" /\
  exists e, init echo a fresh = (Raise e, fresh).
Proof.
  intros a.
  assert (missing_or_empty (indexing_policy a) "vectorIndexes") as H
    by exact (entry_absent _ _ ∅ eq_refl eq_refl).
  split; [reflexivity|]. split; [exact H|].
  exact (init_fail_fast echo a fresh eq_refl (or_introl H)).
Defined.

Lemma init_configuration_error_witness :
  let a := configuration (Some Client) (embedding_policy "/embedding")
             (VDict {[ "vectorIndexes" := VList [] ]})
             (VDict {[ "partition_key" := VNone ]}) (VDict ∅) true in
  let b := configuration (Some Client) VNone (index_policy "/embedding")
             container_properties (VDict ∅) true in
  let c := configuration (Some Client) (embedding_policy "/embedding")
             (index_policy "/embedding")
             (VDict {[ "partition_key" := VNone ]}) (VDict ∅) true in
  init echo a fresh = (Raise (ValueError vector_indexes_message), fresh) /\
  init echo b fresh = (Raise (ValueError vector_embeddings_message), fresh) /\
  init echo c fresh = (Raise (ValueError partition_key_message), fresh).
Proof.
  intros a b c. split; [|split].
  - exact (proj1 (init_configuration_error echo a fresh eq_refl)
             {[ "vectorIndexes" := VList [] ]} eq_refl (or_intror eq_refl)).
  - exact (proj1 (proj2 (init_configuration_error echo b fresh eq_refl))
             eq_refl (or_introl eq_refl)).
  - exact (proj2 (proj2 (init_configuration_error echo c fresh eq_refl))
             eq_refl eq_refl
             (or_intror (ex_intro _ {[ "partition_key" := VNone ]} (conj eq_refl eq_refl)))).
Defined.

Lemma init_absent_entry_witness :
  let a := configuration (Some Client) (embedding_policy "/embedding") (VDict ∅)
             container_properties (VDict ∅) true in
  let b := configuration (Some Client) (embedding_policy "/embedding")
             (index_policy "/embedding") (VDict ∅) (VDict ∅) true in
  init echo a fresh = (Raise (KeyError (VStr "vectorIndexes")), fresh) /\
  init echo b fresh = (Raise (KeyError (VStr "partition_key")), fresh).
Proof.
  intros a b. split.
  - exact (proj1 (init_absent_entry echo a fresh eq_refl) ∅ eq_refl eq_refl).
  - exact (proj2 (proj2 (init_absent_entry echo b fresh eq_refl)) ∅
             eq_refl eq_refl eq_refl eq_refl).
Defined.

Lemma create_container_guards_validation_only_witness :
  let a := sample_args "/embedding" (VDict ∅) true in
  validate (with_create_container true a) = Ok tt /\
  init echo (with_create_container false a) fresh =
  init echo (with_create_container true a) fresh.
Proof.
  intros a. split; [reflexivity|].
  exact (create_container_guards_validation_only echo a fresh eq_refl).
Defined.

(** A declared path without the leading separator loses its first letter. *)
Lemma embedding_key_of_first_entry_witness :
  embedding_key_of
    (VDict {[ "vectorEmbeddings" :=
                VList [VDict {[ "path" := VStr "embedding" ]};
                       VDict {[ "path" := VStr "/other" ]}] ]}) =
  Ok (VStr "mbedding").
Proof.
  exact (proj1 (embedding_key_of_first_entry
                  {[ "vectorEmbeddings" :=
                       VList [VDict {[ "path" := VStr "embedding" ]};
                              VDict {[ "path" := VStr "/other" ]}] ]}
                  {[ "path" := VStr "embedding" ]}
                  [VDict {[ "path" := VStr "/other" ]}] eq_refl)
           "e"%char "mbedding" eq_refl).
Defined.

Lemma init_first_entry_without_path_witness :
  let policy : gmap string value :=
    {[ "vectorEmbeddings" := VList [VDict {[ "dimensions" := VInt 3 ]}] ]} in
  let a := configuration (Some Client) (VDict policy) (index_policy "/embedding")
             container_properties (VDict ∅) true in
  validate a = Ok tt /\
  init echo a fresh = (Raise (KeyError (VStr "path")), fresh).
Proof.
  intros policy a. split; [reflexivity|].
  exact (init_first_entry_without_path echo a fresh policy
           {[ "dimensions" := VInt 3 ]} [] eq_refl eq_refl eq_refl eq_refl).
Defined.

Lemma init_without_client_witness :
  let a := configuration None (embedding_policy "/embedding") (index_policy "/embedding")
             container_properties (VDict ∅) true in
  cosmos_client a = None /\
  init echo a fresh = (Raise AttributeError, fresh).
Proof.
  intros a. split; [reflexivity|].
  exact (proj2 (init_without_client echo a fresh eq_refl) (VStr "embedding")
           eq_refl eq_refl).
Defined.

Lemma init_succeeds_witness :
  let a := sample_args "/embedding" (VDict {[ "offer_throughput" := VInt 400 ]}) true in
  init echo a fresh =
  (Ok (self_of a Client (VStr "embedding")),
   {| calls :=
        [create_database_if_not_exists "vectorSearchDB"
           (VInt 400) VNone VNone VNone VNone;
         sample_container_call];
      items := [] |}).
Proof.
  intros a.
  exact (init_succeeds echo a fresh (VStr "embedding") Client
           {[ "offer_throughput" := VInt 400 ]} {[ "partition_key" := VStr "/id" ]}
           (VStr "/id") eq_refl eq_refl eq_refl eq_refl eq_refl eq_refl eq_refl eq_refl).
Defined.

Lemma init_Ok_inv_witness :
  let a := sample_args "/embedding" (VDict ∅) false in
  init echo a fresh =
    (Ok (self_of a Client (VStr "embedding")),
     {| calls := [sample_database_call; sample_container_call]; items := [] |}) /\
  validate a = Ok tt /\
  exists dm, cosmos_database_properties a = VDict dm.
Proof.
  intros a.
  assert (init echo a fresh =
          (Ok (self_of a Client (VStr "embedding")),
           {| calls := [sample_database_call; sample_container_call]; items := [] |}))
    as H by reflexivity.
  destruct (init_Ok_inv echo a fresh _ _ H)
    as (Hv & k & c & dm & cm & pk & db & ct & _ & _ & Hdm & _).
  split; [exact H|]. split; [exact Hv|]. exists dm. exact Hdm.
Defined.

Lemma init_database_rejected_witness :
  let a := sample_args "/embedding" (VDict ∅) true in
  init (flaky 0) a fresh =
  (Raise (CosmosHttpResponseError 429),
   {| calls := [sample_database_call]; items := [] |}).
Proof.
  intros a.
  exact (init_database_rejected (flaky 0) a fresh (VStr "embedding") Client
           sample_database_call (CosmosHttpResponseError 429)
           eq_refl eq_refl eq_refl eq_refl eq_refl).
Defined.

Lemma init_partition_key_absent_after_database_witness :
  let a := configuration (Some Client) (embedding_policy "/embedding")
             (index_policy "/embedding") (VDict ∅) (VDict ∅) false in
  init echo a fresh =
  (Raise (KeyError (VStr "partition_key")),
   {| calls := [sample_database_call]; items := [] |}).
Proof.
  intros a.
  exact (init_partition_key_absent_after_database echo a fresh (VStr "embedding")
           Client sample_database_call ∅ eq_refl eq_refl eq_refl eq_refl eq_refl
           eq_refl eq_refl).
Defined.

Lemma init_twice_witness :
  let a := sample_args "/embedding" (VDict ∅) true in
  let once := {| calls := [sample_database_call; sample_container_call]; items := [] |} in
  never_rejects echo /\
  init echo a fresh = (Ok (self_of a Client (VStr "embedding")), once) /\
  exists db ct,
    calls once = calls fresh ++ [db; ct] /\
    init echo a once =
    (Ok (self_of a Client (VStr "embedding")),
     {| calls := calls fresh ++ [db; ct; db; ct]; items := items fresh |}).
Proof.
  intros a once.
  assert (never_rejects echo) as Hnr by (intros h c; reflexivity).
  assert (init echo a fresh = (Ok (self_of a Client (VStr "embedding")), once))
    as H by reflexivity.
  split; [exact Hnr|]. split; [exact H|].
  exact (init_twice echo a fresh _ _ Hnr H).
Defined.

Lemma entry_of_fields_witness :
  exists d : gmap string value,
    entry_of (sample_self "embedding") hello = Ok (VDict d) /\
    dom d = {[ "id"; "embedding"; "text"; "metadata" ]} /\
    d !! "metadata" = Some (blob_of hello) /\
    d !! "text" = Some (VStr "hello") /\
    d !! "embedding" = Some (VList (VFloat <$> sample_embedding)) /\
    d !! "id" = Some (VStr "n1").
Proof.
  destruct (entry_of_fields (sample_self "embedding") hello "embedding"
              (blob_of hello) (VList (VFloat <$> sample_embedding))
              eq_refl eq_refl eq_refl)
    as (d & He & Hd & Hm & Ht & Hv & Hi).
  exists d. split; [exact He|]. split; [exact Hd|]. split; [exact Hm|].
  split; [apply Ht; discriminate|].
  split; [apply Hv; discriminate|apply Hi; discriminate].
Defined.

(** The second of three nodes has no embedding: nothing is sent, not even for
    the first. *)
Lemma add_build_failure_witness :
  add echo (sample_self "embedding")
    ([hello] ++ hello_without_embedding :: [node_with_id "n3" hello]) fresh =
  (Raise (ValueError "embedding not set."), fresh).
Proof.
  apply (add_build_failure echo (sample_self "embedding") [hello]
           hello_without_embedding [node_with_id "n3" hello]).
  - constructor; [|constructor]. exists (VDict hello_doc). reflexivity.
  - reflexivity.
Defined.

Lemma add_app_witness :
  let self := sample_self "embedding" in
  let both := {| calls := upsert_item <$> take 2 three_docs; items := take 2 three_docs |} in
  add echo self [hello] fresh = (Ok ["n1"], stored) /\
  add echo self [node_with_id "n2" hello] stored = (Ok ["n2"], both) /\
  add echo self ([hello] ++ [node_with_id "n2" hello]) fresh =
    (Ok (["n1"] ++ ["n2"]), both).
Proof.
  intros self both.
  assert (add echo self [hello] fresh = (Ok ["n1"], stored)) as H1
    by (vm_compute; reflexivity).
  assert (add echo self [node_with_id "n2" hello] stored = (Ok ["n2"], both)) as H2
    by (vm_compute; reflexivity).
  split; [exact H1|]. split; [exact H2|].
  exact (add_app echo self _ _ _ _ _ _ _ H1 H2).
Defined.

Lemma query_rejected_witness :
  query (flaky 0) (sample_self "embedding") (sample_query 1) fresh =
  (Raise (CosmosHttpResponseError 429),
   {| calls := [similarity_call (sample_query 1)]; items := [] |}).
Proof.
  exact (query_rejected (flaky 0) (sample_self "embedding") (sample_query 1) fresh
           (CosmosHttpResponseError 429) eq_refl).
Defined.

Lemma query_result_rows_witness :
  let self := sample_self "embedding" in
  let item := with_score (VFloat (S754_zero false)) (VDict hello_doc) in
  rows echo stored (similarity_call (sample_query 1)) !! 0 = Some item /\
  exists n row_id score blob n0,
    nodes hello_result !! 0 = Some n /\
    ids hello_result !! 0 = Some row_id /\
    similarities hello_result !! 0 = Some score /\
    getitem item (_id_key self) = Ok row_id /\
    getitem item "SimilarityScore" = Ok score /\
    getitem item (_text_key self) = Ok (get_content n) /\
    getitem item (_metadata_key self) = Ok blob /\
    metadata_dict_to_node blob = Ok n0 /\
    node_id n = node_id n0 /\
    metadata n = metadata n0.
Proof.
  intros self item.
  assert (query echo self (sample_query 1) stored =
          (Ok hello_result,
           {| calls := calls stored ++ [similarity_call (sample_query 1)];
              items := items stored |})) as H by (vm_compute; reflexivity).
  split; [reflexivity|].
  exact (query_result_rows echo self (sample_query 1) stored hello_result _ 0 item
           H eq_refl).
Defined.

(** A service that holds, beside the document of [hello], an empty document. *)
Lemma query_unreadable_row_witness :
  let self := sample_self "embedding" in
  let s := {| calls := []; items := [VDict hello_doc; VDict ∅] |} in
  query echo self (sample_query 2) s =
  (Raise (KeyError (VStr "metadata")),
   {| calls := [similarity_call (sample_query 2)]; items := items s |}).
Proof.
  intros self s.
  assert (Forall (fun x => exists t, read_row self x = Ok t)
            [with_score (VFloat (S754_zero false)) (VDict hello_doc)]) as Hd.
  { constructor; [|constructor].
    exists (hello_read, VStr "n1", VFloat (S754_zero false)). vm_compute. reflexivity. }
  exact (proj2 (query_unreadable_row echo self (sample_query 2) s
                  [with_score (VFloat (S754_zero false)) (VDict hello_doc)]
                  (VDict (<["SimilarityScore" := VFloat (S754_zero false)]> ∅)) []
                  eq_refl eq_refl Hd)
           (<["SimilarityScore" := VFloat (S754_zero false)]> ∅) eq_refl eq_refl).
Defined.

Lemma add_query_round_trip_all_witness :
  let self := sample_self "embedding" in
  let zero := VFloat (S754_zero false) in
  let s := {| calls := upsert_item <$> three_docs; items := three_docs |} in
  add echo self three_nodes fresh = (Ok ["n1"; "n2"; "n3"], s) /\
  query echo self (sample_query 3) s =
  (Ok {| nodes := read_back <$> three_nodes;
         similarities := [zero; zero; zero];
         ids := [VStr "n1"; VStr "n2"; VStr "n3"] |},
   {| calls := calls s ++ [similarity_call (sample_query 3)]; items := items s |}).
Proof.
  intros self zero s. split; [vm_compute; reflexivity|].
  apply (add_query_round_trip_all echo self "embedding" three_nodes three_docs
           [zero; zero; zero] (sample_query 3) s); try discriminate; try reflexivity.
  repeat constructor.
Defined.
